(** * EC2 configuration loader: a shallow embedding of [ec2_config.py]

    The development models the class [EC2Secrets] of [src/ec2_config.py]:
    the [.env] parser, the Firebase JSON loader, the assembly of the
    Streamlit-style secrets mapping and the accessors.  Python values are an
    inductive type, [os.environ] and [self._config] are finite maps, and the
    methods are written in a small state-and-exception monad so that they
    read like the Python they come from. *)

From Stdlib Require Import ZArith Ascii String Lia.
From stdpp Require Import gmap strings list pretty.

Set Warnings "-register-all,-clear-no-such-hyp".
Open Scope string_scope.

(* ===================================================================== *)
(** ** Python [str] operations used by the loader *)
(* ===================================================================== *)

(** A [str] is modelled as a [string] whose characters are the code points
    below 256; the tables below are Python's for that range. *)
Module PyStr.

Definition code (c : ascii) : N := N_of_ascii c.

(** [str.isspace] on one character: TAB..CR, FS..US, space, NEL, NBSP. *)
Definition is_space (c : ascii) : bool :=
  let n := code c in
  ((9 <=? n) && (n <=? 13) || (28 <=? n) && (n <=? 32)
   || (n =? 133) || (n =? 160))%N.

(** Membership of a character in a string: [c in s] for a one-character
    [c]. *)
Fixpoint contains (c : ascii) (s : string) : bool :=
  match s with
  | EmptyString => false
  | String a s' => Ascii.eqb a c || contains c s'
  end.

Fixpoint lstrip_by (p : ascii -> bool) (s : string) : string :=
  match s with
  | EmptyString => EmptyString
  | String c s' => if p c then lstrip_by p s' else s
  end.

Fixpoint rstrip_by (p : ascii -> bool) (s : string) : string :=
  match s with
  | EmptyString => EmptyString
  | String c s' =>
      match rstrip_by p s' with
      | EmptyString => if p c then EmptyString else String c EmptyString
      | r => String c r
      end
  end.

Definition strip_by (p : ascii -> bool) (s : string) : string :=
  rstrip_by p (lstrip_by p s).

(** [s.strip()] *)
Definition strip (s : string) : string := strip_by is_space s.

(** [s.strip(chars)] *)
Definition strip_chars (chars : string) (s : string) : string :=
  strip_by (fun c => contains c chars) s.

(** [s.rstrip(chars)] *)
Definition rstrip_chars (chars : string) (s : string) : string :=
  rstrip_by (fun c => contains c chars) s.

(** [s.startswith(c)] for a one-character prefix. *)
Definition startswith (c : ascii) (s : string) : bool :=
  match s with
  | String a _ => Ascii.eqb a c
  | EmptyString => false
  end.

(** [s.partition(c)] when [c] occurs: the text before and after the first
    occurrence. *)
Fixpoint cut (c : ascii) (s : string) : option (string * string) :=
  match s with
  | EmptyString => None
  | String a s' =>
      if Ascii.eqb a c then Some (EmptyString, s')
      else match cut c s' with
           | Some (k, v) => Some (String a k, v)
           | None => None
           end
  end.

(** [s.split(c, 1)] *)
Definition split1 (c : ascii) (s : string) : list string :=
  match cut c s with
  | Some (k, v) => [k; v]
  | None => [s]
  end.

Definition lower_char (c : ascii) : ascii :=
  let n := code c in
  if ((65 <=? n) && (n <=? 90)
      || (192 <=? n) && (n <=? 222) && negb (n =? 215))%N
  then ascii_of_N (n + 32) else c.

(** [s.lower()] *)
Fixpoint lower (s : string) : string :=
  match s with
  | EmptyString => EmptyString
  | String c s' => String (lower_char c) (lower s')
  end.

(** Text-mode reading translates ["\r\n"] and a lone ["\r"] to ["\n"]. *)
Fixpoint universal_newlines (s : string) : string :=
  match s with
  | EmptyString => EmptyString
  | String c s' =>
      if Ascii.eqb c "013" then
        match s' with
        | String d s'' =>
            if Ascii.eqb d "010" then String "010" (universal_newlines s'')
            else String "010" (universal_newlines s')
        | EmptyString => String "010" EmptyString
        end
      else String c (universal_newlines s')
  end.

(** The lines of a text, each with its terminating newline kept, as
    iteration over a file object yields them. *)
Fixpoint lines (s : string) : list string :=
  match s with
  | EmptyString => []
  | String c s' =>
      if Ascii.eqb c "010" then String c EmptyString :: lines s'
      else match lines s' with
           | [] => [String c EmptyString]
           | l :: ls => String c l :: ls
           end
  end.

Definition digit_val (c : ascii) : option Z :=
  let n := code c in
  if ((48 <=? n) && (n <=? 57))%N then Some (Z.of_N n - 48)%Z else None.

(** Default of [sys.get_int_max_str_digits()]. *)
Definition int_max_str_digits : nat := 4300.

(** Decimal digits with single underscores allowed between digits.
    [seen] tells whether the previous character was a digit, [n] counts
    the digits read. *)
Fixpoint int_digits (acc : Z) (n : nat) (seen : bool) (s : string)
  : option Z :=
  match s with
  | EmptyString =>
      if seen && (n <=? int_max_str_digits)%nat then Some acc else None
  | String c s' =>
      if Ascii.eqb c "_" then
        if seen then int_digits acc n false s' else None
      else match digit_val c with
           | Some d => int_digits (10 * acc + d)%Z (S n) true s'
           | None => None
           end
  end.

(** The characters [int] skips around a literal.  The parser skips the
    ASCII white space, TAB..CR and space, and nothing else; before it runs,
    a text that is not ASCII has its white space above DEL, here NEL and
    NBSP, replaced by spaces.  The separators FS..US, which [str.isspace]
    and [str.strip] take, are not skipped: [int] raises on them. *)
Definition is_space_int (c : ascii) : bool :=
  let n := code c in
  ((9 <=? n) && (n <=? 13) || (n =? 32) || (n =? 133) || (n =? 160))%N.

(** [int(s)]: [None] stands for [ValueError]. *)
Definition int (s : string) : option Z :=
  match strip_by is_space_int s with
  | String "-" r => Z.opp <$> int_digits 0 0 false r
  | String "+" r => int_digits 0 0 false r
  | r => int_digits 0 0 false r
  end.

End PyStr.

Definition dquote : string := String "034" EmptyString.
Definition squote : string := "'".

(* ===================================================================== *)
(** ** Python values, exceptions and the host the loader runs on *)
(* ===================================================================== *)

(** A [float] as the decimal number [m * 10^e] its literal denotes, before
    rounding to binary64; only its truth value is observed here. *)
Inductive pyfloat : Type :=
| FNaN
| FInf (neg : bool)
| FDec (m e : Z).

(** The values [json.loads] produces, which are also the values stored in
    [self._config]. *)
Inductive pyvalue : Type :=
| PyNone
| PyBool (b : bool)
| PyInt (z : Z)
| PyFloat (f : pyfloat)
| PyStr (s : string)
| PyList (l : list pyvalue)
| PyDict (d : gmap string pyvalue).

(** A decimal rounds to a non-zero binary64 exactly when it lies above half
    the least subnormal, [2^-1075]. *)
Definition float_nonzero (f : pyfloat) : bool :=
  match f with
  | FNaN | FInf _ => true
  | FDec m e =>
      if (m =? 0)%Z then false
      else if (0 <=? e)%Z then true
      else (10 ^ (- e) <? Z.abs m * 2 ^ 1075)%Z
  end.

(** [bool(v)] *)
Definition py_bool (v : pyvalue) : bool :=
  match v with
  | PyNone => false
  | PyBool b => b
  | PyInt z => negb (z =? 0)%Z
  | PyFloat f => float_nonzero f
  | PyStr s => negb (String.eqb s "")
  | PyList l => match l with [] => false | _ => true end
  | PyDict d => negb (bool_decide (d = ∅))
  end.

(** The result of [os.getenv(name)] as a Python value. *)
Definition of_getenv (o : option string) : pyvalue :=
  match o with
  | Some s => PyStr s
  | None => PyNone
  end.

Inductive exn : Type :=
| KeyError (key : string)
| ValueError
| JSONDecodeError
| TypeError
| OSError
| RecursionError.

Inductive result (A : Type) : Type :=
| Return (a : A)
| Raise (e : exn).
Arguments Return {A} a.
Arguments Raise {A} e.

(** What [os.path.exists] and [open(path, 'r')] observe of one path: nothing
    there, something that exists and cannot be opened for reading (a
    directory, a file without read permission), or a file whose bytes decode
    to a text. *)
Inductive file : Type :=
| Missing
| Unreadable
| Text (contents : string).

(** The parts of the host that the loader only reads: the file system and
    the home directory of the password database ([None] when the user has
    no entry). *)
Record Host : Type := {
  fs : string -> file;
  pw_dir : option string
}.

(** The [json] module of the standard library.  [loads] raises
    [JSONDecodeError] on a text that is not JSON, and may raise other
    exceptions on a text that is (an integer beyond the digit limit, a
    nesting beyond the recursion limit). *)
Class JsonLib : Type := {
  json_loads : string -> result pyvalue;
  json_dumps : pyvalue -> string;
  (** the empty text is not a JSON document *)
  json_loads_empty : json_loads "" = Raise JSONDecodeError
}.

(** The instance state of [EC2Secrets]. *)
Record EC2Secrets : Type := {
  _config : gmap string pyvalue;
  _loaded : bool
}.

(** [EC2Secrets.__init__] *)
Definition __init__ : EC2Secrets := {| _config := ∅; _loaded := false |}.

(** The mutable state of the process: [os.environ] and the instance. *)
Record Proc : Type := {
  environ : gmap string string;
  self : EC2Secrets
}.

(* ===================================================================== *)
(** ** A state-and-exception monad *)
(* ===================================================================== *)

Definition M (A : Type) : Type := Proc -> result A * Proc.

Definition ret {A} (a : A) : M A := fun p => (Return a, p).

Definition bind {A B} (m : M A) (k : A -> M B) : M B :=
  fun p => match m p with
           | (Return a, p') => k a p'
           | (Raise e, p') => (Raise e, p')
           end.

Definition raise {A} (e : exn) : M A := fun p => (Raise e, p).

(** [try: m  except Exception: h] *)
Definition try_except {A} (m : M A) (h : exn -> M A) : M A :=
  fun p => match m p with
           | (Return a, p') => (Return a, p')
           | (Raise e, p') => h e p'
           end.

Declare Scope py_scope.
Delimit Scope py_scope with py.
Notation "x <~ m ;; k" := (bind m (fun x => k))
  (at level 100, m at next level, right associativity) : py_scope.
Notation "m ;;; k" := (bind m (fun _ => k))
  (at level 100, right associativity) : py_scope.
Open Scope py_scope.

(** [for x in l: body(x)] *)
Fixpoint for_each {A} (l : list A) (body : A -> M unit) : M unit :=
  match l with
  | [] => ret tt
  | x :: l' => body x ;;; for_each l' body
  end.

(** [if c: m] *)
Definition when (c : bool) (m : M unit) : M unit :=
  if c then m else ret tt.

(** Truth value of what [os.getenv(name)] returned. *)
Definition getenv_bool (o : option string) : bool := py_bool (of_getenv o).

(** [os.getenv(name)] *)
Definition os_getenv (name : string) : M (option string) :=
  fun p => (Return (environ p !! name), p).

(** [os.getenv(name, dflt)] *)
Definition os_getenv_default (name dflt : string) : M string :=
  fun p => (Return (default dflt (environ p !! name)), p).

(** [os.environ[key] = value]: the name must be non-empty and free of ['=']
    and neither string may hold a NUL character. *)
Definition putenv_ok (key value : string) : bool :=
  negb (String.eqb key "")
  && negb (PyStr.contains "=" key)
  && negb (PyStr.contains "000" key)
  && negb (PyStr.contains "000" value).

(** The exception of a refused assignment: [os.putenv] raises [ValueError]
    for a NUL character in either string and for ['='] in the name; an
    empty name passes these checks and is refused by [setenv], which gives
    [OSError]. *)
Definition putenv_error (key value : string) : exn :=
  if PyStr.contains "000" key || PyStr.contains "000" value
     || PyStr.contains "=" key
  then ValueError else OSError.

Definition os_environ_setitem (key value : string) : M unit :=
  fun p =>
    if putenv_ok key value
    then (Return tt, {| environ := <[key := value]> (environ p); self := self p |})
    else (Raise (putenv_error key value), p).

(** [self._config[key] = v] *)
Definition config_setitem (key : string) (v : pyvalue) : M unit :=
  fun p =>
    (Return tt,
     {| environ := environ p;
        self := {| _config := <[key := v]> (_config (self p));
                   _loaded := _loaded (self p) |} |}).

(** [self._loaded = b] *)
Definition set_loaded (b : bool) : M unit :=
  fun p =>
    (Return tt,
     {| environ := environ p;
        self := {| _config := _config (self p); _loaded := b |} |}).

Definition get_self : M EC2Secrets := fun p => (Return (self p), p).

(** [obj[key] = v] on a local value: only a [dict] accepts a string key. *)
Definition py_setitem (obj : pyvalue) (key : string) (v : pyvalue)
  : M pyvalue :=
  match obj with
  | PyDict d => ret (PyDict (<[key := v]> d))
  | _ => raise TypeError
  end.

(* ===================================================================== *)
(** ** The class [EC2Secrets] *)
(* ===================================================================== *)

(** [os.path.expanduser("~" + rest)] for a [rest] that starts with ["/"]:
    [$HOME] when it is set, else the password database, else the path as it
    is. *)
Definition expand_home (h : Host) (env : gmap string string) (rest : string)
  : string :=
  match env !! "HOME" with
  | Some userhome => PyStr.rstrip_chars "/" userhome +:+ rest
  | None =>
      match pw_dir h with
      | Some userhome => PyStr.rstrip_chars "/" userhome +:+ rest
      | None => "~" +:+ rest
      end
  end.

Definition expanduser (h : Host) (rest : string) : M string :=
  fun p => (Return (expand_home h (environ p) rest), p).

(** [os.path.exists(path)] *)
Definition path_exists (h : Host) (path : string) : bool :=
  match fs h path with
  | Missing => false
  | _ => true
  end.

(** [open(path, 'r')] followed by reading the whole text. *)
Definition open_read (h : Host) (path : string) : M string :=
  match fs h path with
  | Text s => ret (PyStr.universal_newlines s)
  | _ => raise OSError
  end.

(** Truth value of an [Optional[str]] path. *)
Definition path_bool (o : option string) : bool :=
  match o with
  | Some s => negb (String.eqb s "")
  | None => false
  end.

(** [for path in paths: if path and os.path.exists(path): loader(path); break] *)
Fixpoint load_first (h : Host) (paths : list (option string))
    (loader : string -> M unit) : M unit :=
  match paths with
  | [] => ret tt
  | o :: rest =>
      match o with
      | Some path =>
          if path_bool o && path_exists h path then loader path
          else load_first h rest loader
      | None => load_first h rest loader
      end
  end.

(** The body of the loop of [_load_env_file]. *)
Definition env_line (line : string) : M unit :=
  let line := PyStr.strip line in
  if String.eqb line "" || PyStr.startswith "#" line then ret tt
  else if PyStr.contains "=" line then
    match PyStr.split1 "=" line with
    | [key; value] =>
        let key := PyStr.strip key in
        let value :=
          PyStr.strip_chars squote
            (PyStr.strip_chars dquote (PyStr.strip value)) in
        os_environ_setitem key value
    | _ => raise ValueError
    end
  else ret tt.

Definition _load_env_file (h : Host) (filepath : string) : M unit :=
  try_except
    (text <~ open_read h filepath ;;
     for_each (PyStr.lines text) env_line)
    (fun _ => ret tt).

Definition _load_firebase_config `{JsonLib} (h : Host) (filepath : string)
  : M unit :=
  try_except
    (text <~ open_read h filepath ;;
     match json_loads text with
     | Return firebase_config =>
         os_environ_setitem "FIREBASE_CONFIG_JSON" (json_dumps firebase_config)
     | Raise e => raise e
     end)
    (fun _ => ret tt).

Definition firebase_env_mapping : list (string * string) :=
  [ ("type", "FIREBASE_TYPE");
    ("project_id", "FIREBASE_PROJECT_ID");
    ("private_key_id", "FIREBASE_PRIVATE_KEY_ID");
    ("private_key", "FIREBASE_PRIVATE_KEY");
    ("client_email", "FIREBASE_CLIENT_EMAIL");
    ("client_id", "FIREBASE_CLIENT_ID");
    ("auth_uri", "FIREBASE_AUTH_URI");
    ("token_uri", "FIREBASE_TOKEN_URI");
    ("auth_provider_x509_cert_url", "FIREBASE_AUTH_PROVIDER_CERT_URL");
    ("client_x509_cert_url", "FIREBASE_CLIENT_CERT_URL");
    ("web_api_key", "FIREBASE_WEB_API_KEY") ].

(** [if os.getenv(env_var): obj[key] = os.getenv(env_var)] on a local
    [obj]. *)
Definition set_from_env (obj : pyvalue) (key env_var : string) : M pyvalue :=
  o <~ os_getenv env_var ;;
  if getenv_bool o then
    v <~ os_getenv env_var ;; py_setitem obj key (of_getenv v)
  else ret obj.

(** [for key, env_var in mapping.items(): ...] *)
Fixpoint from_env_mapping (mapping : list (string * string))
    (firebase_config : pyvalue) : M pyvalue :=
  match mapping with
  | [] => ret firebase_config
  | (key, env_var) :: rest =>
      firebase_config <~ set_from_env firebase_config key env_var ;;
      from_env_mapping rest firebase_config
  end.

(** The five sections of [_build_config], in source order. *)

Definition build_anthropic : M unit :=
  o <~ os_getenv "ANTHROPIC_API_KEY" ;;
  if getenv_bool o then
    v <~ os_getenv "ANTHROPIC_API_KEY" ;;
    config_setitem "ANTHROPIC_API_KEY" (of_getenv v)
  else ret tt.

Definition build_firebase `{JsonLib} : M unit :=
  let firebase_config := PyDict ∅ in
  o <~ os_getenv "FIREBASE_CONFIG_JSON" ;;
  firebase_config <~
    (if getenv_bool o then
       v <~ os_getenv "FIREBASE_CONFIG_JSON" ;;
       match v with
       | Some s =>
           match json_loads s with
           | Return decoded => ret decoded
           | Raise JSONDecodeError => ret firebase_config
           | Raise e => raise e
           end
       | None => raise TypeError
       end
     else ret firebase_config) ;;
  firebase_config <~
    (if negb (py_bool firebase_config)
     then from_env_mapping firebase_env_mapping firebase_config
     else ret firebase_config) ;;
  when (py_bool firebase_config) (config_setitem "firebase" firebase_config).

Definition build_admin : M unit :=
  let admin_config := PyDict ∅ in
  admin_config <~ set_from_env admin_config "email" "ADMIN_EMAIL" ;;
  admin_config <~ set_from_env admin_config "password" "ADMIN_PASSWORD" ;;
  admin_config <~ set_from_env admin_config "key" "ADMIN_KEY" ;;
  when (py_bool admin_config) (config_setitem "admin" admin_config).

Definition build_aws : M unit :=
  region <~ os_getenv_default "AWS_DEFAULT_REGION" "us-east-1" ;;
  let aws_config := PyDict {[ "region" := PyStr region ]} in
  o <~ os_getenv "AWS_ACCESS_KEY_ID" ;;
  aws_config <~
    (if getenv_bool o then
       v <~ os_getenv "AWS_ACCESS_KEY_ID" ;;
       aws_config <~ py_setitem aws_config "access_key_id" (of_getenv v) ;;
       secret <~ os_getenv_default "AWS_SECRET_ACCESS_KEY" "" ;;
       py_setitem aws_config "secret_access_key" (PyStr secret)
     else ret aws_config) ;;
  config_setitem "aws" aws_config.

Definition build_app : M unit :=
  mode <~ os_getenv_default "APP_MODE" "production" ;;
  port_s <~ os_getenv_default "APP_PORT" "8501" ;;
  port <~ match PyStr.int port_s with
          | Some n => ret n
          | None => raise ValueError
          end ;;
  host <~ os_getenv_default "APP_HOST" "0.0.0.0" ;;
  debug_s <~ os_getenv_default "APP_DEBUG" "false" ;;
  let debug := String.eqb (PyStr.lower debug_s) "true" in
  config_setitem "app"
    (PyDict
       (<["mode" := PyStr mode]>
          (<["port" := PyInt port]>
             (<["host" := PyStr host]>
                {[ "debug" := PyBool debug ]})))).

Definition _build_config `{JsonLib} : M unit :=
  build_anthropic ;;;
  build_firebase ;;;
  build_admin ;;;
  build_aws ;;;
  build_app.

(** The candidate lists built at the start of [load]. *)
Definition env_paths (h : Host) (env_file : option string)
  : M (list (option string)) :=
  home <~ expanduser h "/.dbmigration/.env" ;;
  ret [ env_file; Some ".env"; Some "/etc/dbmigration/.env";
        Some home; Some "/opt/dbmigration/.env" ].

Definition firebase_paths (h : Host) (config_file : option string)
  : M (list (option string)) :=
  home <~ expanduser h "/.dbmigration/firebase-config.json" ;;
  ret [ config_file; Some "firebase-config.json";
        Some "/etc/dbmigration/firebase-config.json";
        Some home; Some "/opt/dbmigration/firebase-config.json" ].

Definition load `{JsonLib} (h : Host) (env_file config_file : option string)
  : M EC2Secrets :=
  paths <~ env_paths h env_file ;;
  load_first h paths (_load_env_file h) ;;;
  paths <~ firebase_paths h config_file ;;
  load_first h paths (_load_firebase_config h) ;;;
  _build_config ;;;
  set_loaded true ;;;
  get_self.

(** [if not self._loaded: self.load()] *)
Definition ensure_loaded `{JsonLib} (h : Host) : M unit :=
  s <~ get_self ;;
  if _loaded s then ret tt else (load h None None ;;; ret tt).

Definition __contains__ `{JsonLib} (h : Host) (key : string) : M bool :=
  ensure_loaded h ;;;
  s <~ get_self ;;
  ret (bool_decide (is_Some (_config s !! key))).

Definition __getitem__ `{JsonLib} (h : Host) (key : string) : M pyvalue :=
  ensure_loaded h ;;;
  s <~ get_self ;;
  match _config s !! key with
  | Some v => ret v
  | None => raise (KeyError key)
  end.

Definition get `{JsonLib} (h : Host) (key : string) (dflt : pyvalue)
  : M pyvalue :=
  ensure_loaded h ;;;
  s <~ get_self ;;
  ret (default dflt (_config s !! key)).

Definition keys `{JsonLib} (h : Host) : M (gset string) :=
  ensure_loaded h ;;;
  s <~ get_self ;;
  ret (dom (_config s)).

(** [self._config.items()], as the list of its pairs; the order in which a
    [dict] yields them is not part of this model. *)
Definition items `{JsonLib} (h : Host) : M (list (string * pyvalue)) :=
  ensure_loaded h ;;;
  s <~ get_self ;;
  ret (map_to_list (_config s)).

(* ===================================================================== *)
(** ** The module-level functions and the launcher *)
(* ===================================================================== *)

(** [obj[key]] for a string key: a [dict] looks the key up, no other value
    of the model takes a string subscript. *)
Definition py_getitem (obj : pyvalue) (key : string) : M pyvalue :=
  match obj with
  | PyDict d =>
      match d !! key with
      | Some v => ret v
      | None => raise (KeyError key)
      end
  | _ => raise TypeError
  end.

(** [os.environ[key] = v]: only a [str] can be stored. *)
Definition os_environ_setitem_value (key : string) (v : pyvalue) : M unit :=
  match v with
  | PyStr s => os_environ_setitem key s
  | _ => raise TypeError
  end.

(** [secrets['aws']['region']] *)
Definition aws_region `{JsonLib} (h : Host) : M pyvalue :=
  aws <~ __getitem__ h "aws" ;;
  py_getitem aws "region".

(** [load_ec2_config]: the global [secrets] is the instance of the process
    state; the three last log lines evaluate accessors. *)
Definition load_ec2_config `{JsonLib} (h : Host)
    (env_file config_file : option string) : M EC2Secrets :=
  load h env_file config_file ;;;
  region <~ aws_region h ;;
  os_environ_setitem_value "AWS_DEFAULT_REGION" region ;;;
  aws_region h ;;;
  __contains__ h "firebase" ;;;
  __contains__ h "ANTHROPIC_API_KEY" ;;;
  get_self.

(** [check_configuration] can fail in one more way than the class:
    [AttributeError], when [.get] is called on a value that has none. *)
Inductive exn_attr : Type :=
| Exn (e : exn)
| AttributeError.

Inductive outcome (A : Type) : Type :=
| Done (a : A)
| Fail (e : exn_attr).
Arguments Done {A} a.
Arguments Fail {A} e.

Definition MX (A : Type) : Type := Proc -> outcome A * Proc.

Definition retX {A} (a : A) : MX A := fun p => (Done a, p).

Definition bindX {A B} (m : MX A) (k : A -> MX B) : MX B :=
  fun p => match m p with
           | (Done a, p') => k a p'
           | (Fail e, p') => (Fail e, p')
           end.

Definition liftX {A} (m : M A) : MX A :=
  fun p => match m p with
           | (Return a, p') => (Done a, p')
           | (Raise e, p') => (Fail (Exn e), p')
           end.

Notation "x <<~ m ;; k" := (bindX m (fun x => k))
  (at level 100, m at next level, right associativity) : py_scope.

(** [obj.get(key)]: [dict.get] returns [None] for a missing key; the other
    values of the model have no attribute [get]. *)
Definition attr_get (obj : pyvalue) (key : string) : MX pyvalue :=
  match obj with
  | PyDict d => retX (default PyNone (d !! key))
  | _ => fun p => (Fail AttributeError, p)
  end.

(** ['name' in secrets and bool(secrets.get('name', {}).get(field))] *)
Definition section_has `{JsonLib} (h : Host) (name field : string) : MX bool :=
  present <<~ liftX (__contains__ h name) ;;
  if present then
    section <<~ liftX (get h name (PyDict ∅)) ;;
    v <<~ attr_get section field ;;
    retX (py_bool v)
  else retX false.

Definition check_configuration `{JsonLib} (h : Host)
  : MX (gmap string pyvalue) :=
  _ <<~ liftX (load_ec2_config h None None) ;;
  anthropic_api <<~ liftX (__contains__ h "ANTHROPIC_API_KEY") ;;
  firebase <<~ section_has h "firebase" "project_id" ;;
  admin <<~ section_has h "admin" "email" ;;
  region <<~ liftX (aws_region h) ;;
  retX (<["anthropic_api" := PyBool anthropic_api]>
          (<["firebase" := PyBool firebase]>
             (<["admin" := PyBool admin]>
                {[ "aws_region" := PyBool (py_bool region) ]}))).

(** [s[:n]] and [s[-n:]] *)
Fixpoint slice_to (n : nat) (s : string) : string :=
  match n, s with
  | S n', String c s' => String c (slice_to n' s')
  | _, _ => EmptyString
  end.

Fixpoint slice_from (n : nat) (s : string) : string :=
  match n, s with
  | S n', String _ s' => slice_from n' s'
  | _, _ => s
  end.

Definition slice_last (n : nat) (s : string) : string :=
  slice_from (String.length s - n) s.

(** The line [print_config_status] prints for the API key:
    [f"   API Key: {key[:10]}...{key[-4:] if len(key) > 14 else ''}"]. *)
Definition api_key_line (key : string) : string :=
  "   API Key: " +:+ slice_to 10 key +:+ "..."
  +:+ (if (14 <? String.length key)%nat then slice_last 4 key else "").

(** The module-level code of [streamlit_app_ec2.py] that runs before
    Streamlit is imported. *)
Definition streamlit_app_ec2 `{JsonLib} (h : Host) : M unit :=
  load_ec2_config h None None ;;;
  present <~ __contains__ h "ANTHROPIC_API_KEY" ;;
  (if present then
     key <~ __getitem__ h "ANTHROPIC_API_KEY" ;;
     os_environ_setitem_value "ANTHROPIC_API_KEY" key
   else ret tt) ;;;
  region <~ aws_region h ;;
  os_environ_setitem_value "AWS_DEFAULT_REGION" region.

(* ===================================================================== *)
(** ** A reference [json] library *)
(* ===================================================================== *)

(** The theorems below hold for every [JsonLib]; this instance is the one the
    concrete evaluations run on.  It follows the scanner of the standard
    library on texts of the [str] model: a [\u] escape above U+00FF names a
    character the model does not have and is not accepted, and [dumps] writes
    a float as mantissa and exponent and the members of an object in key
    order. *)
Module JsonRef.

Definition is_ws (c : ascii) : bool :=
  let n := PyStr.code c in ((n =? 32) || (n =? 9) || (n =? 10) || (n =? 13))%N.

Fixpoint skip_ws (s : string) : string :=
  match s with
  | String c s' => if is_ws c then skip_ws s' else s
  | EmptyString => s
  end.

Definition hex_val (c : ascii) : option N :=
  let n := PyStr.code c in
  if ((48 <=? n) && (n <=? 57))%N then Some (n - 48)%N
  else if ((97 <=? n) && (n <=? 102))%N then Some (n - 87)%N
  else if ((65 <=? n) && (n <=? 70))%N then Some (n - 55)%N
  else None.

Definition hex4 (s : string) : option (N * string) :=
  match s with
  | String a (String b (String c (String d r))) =>
      match hex_val a, hex_val b, hex_val c, hex_val d with
      | Some x, Some y, Some z, Some w =>
          Some ((((x * 16 + y) * 16 + z) * 16 + w)%N, r)
      | _, _, _, _ => None
      end
  | _ => None
  end.

Definition simple_escape (c : ascii) : option ascii :=
  if Ascii.eqb c "034" then Some "034"%char
  else if Ascii.eqb c "\" then Some "\"%char
  else if Ascii.eqb c "/" then Some "/"%char
  else if Ascii.eqb c "b" then Some "008"%char
  else if Ascii.eqb c "f" then Some "012"%char
  else if Ascii.eqb c "n" then Some "010"%char
  else if Ascii.eqb c "r" then Some "013"%char
  else if Ascii.eqb c "t" then Some "009"%char
  else None.

Definition push (c : ascii) (o : option (string * string))
  : option (string * string) :=
  match o with
  | Some (body, rest) => Some (String c body, rest)
  | None => None
  end.

(** The body of a string literal, after its opening quote. *)
Fixpoint scan_string (fuel : nat) (s : string) : option (string * string) :=
  match fuel, s with
  | S fuel, String c s' =>
      if Ascii.eqb c "034" then Some (EmptyString, s')
      else if Ascii.eqb c "\" then
        match s' with
        | String e s'' =>
            if Ascii.eqb e "u" then
              match hex4 s'' with
              | Some (n, r) =>
                  if (n <? 256)%N then push (ascii_of_N n) (scan_string fuel r)
                  else None
              | None => None
              end
            else match simple_escape e with
                 | Some a => push a (scan_string fuel s'')
                 | None => None
                 end
        | EmptyString => None
        end
      else if (PyStr.code c <? 32)%N then None
      else push c (scan_string fuel s')
  | _, _ => None
  end.

Definition is_digit (c : ascii) : bool :=
  match PyStr.digit_val c with Some _ => true | None => false end.

Fixpoint span_digits (s : string) : string * string :=
  match s with
  | String c s' =>
      if is_digit c then let (ds, r) := span_digits s' in (String c ds, r)
      else (EmptyString, s)
  | EmptyString => (EmptyString, s)
  end.

Fixpoint digits_Z (acc : Z) (ds : string) : Z :=
  match ds with
  | String c ds' => digits_Z (10 * acc + default 0%Z (PyStr.digit_val c)) ds'
  | EmptyString => acc
  end.

(** [0|[1-9]\d*] *)
Definition scan_int (s : string) : option (string * string) :=
  match s with
  | String c r =>
      if Ascii.eqb c "0" then Some ("0", r)
      else if is_digit c then
        let (ds, r') := span_digits r in Some (String c ds, r')
      else None
  | EmptyString => None
  end.

(** [(\.\d+)?] *)
Definition scan_frac (s : string) : string * string :=
  match s with
  | String "." r =>
      let (ds, r') := span_digits r in
      if String.eqb ds "" then (EmptyString, s) else (ds, r')
  | _ => (EmptyString, s)
  end.

(** [([eE][-+]?\d+)?] *)
Definition scan_exp (s : string) : option Z * string :=
  match s with
  | String c r =>
      if Ascii.eqb c "e" || Ascii.eqb c "E" then
        let '(neg, r1) :=
          match r with
          | String "-" r1 => (true, r1)
          | String "+" r1 => (false, r1)
          | _ => (false, r)
          end in
        let (ds, r2) := span_digits r1 in
        if String.eqb ds "" then (None, s)
        else (Some (if neg then - digits_Z 0 ds else digits_Z 0 ds)%Z, r2)
      else (None, s)
  | EmptyString => (None, s)
  end.

Definition scan_number (s : string) : option (result pyvalue * string) :=
  let '(neg, s1) :=
    match s with
    | String "-" r => (true, r)
    | _ => (false, s)
    end in
  match scan_int s1 with
  | None => None
  | Some (ip, s2) =>
      let (fp, s3) := scan_frac s2 in
      let (ex, s4) := scan_exp s3 in
      let sign (z : Z) := if neg then (- z)%Z else z in
      match fp, ex with
      | EmptyString, None =>
          if (String.length ip <=? PyStr.int_max_str_digits)%nat
          then Some (Return (PyInt (sign (digits_Z 0 ip))), s4)
          else Some (Raise ValueError, s4)
      | _, _ =>
          Some (Return (PyFloat
                          (FDec (sign (digits_Z 0 (ip +:+ fp)))
                                (default 0%Z ex - Z.of_nat (String.length fp))%Z)),
                s4)
      end
  end.

(** [s] without the prefix [lit], when it has it. *)
Fixpoint after (lit s : string) : option string :=
  match lit, s with
  | EmptyString, _ => Some s
  | String a lit', String b s' => if Ascii.eqb a b then after lit' s' else None
  | _, EmptyString => None
  end.

Definition recursion_limit : nat := 1000.

Definition scan_atom (s : string) : result (pyvalue * string) :=
  match after "null" s with Some r => Return (PyNone, r) | None =>
  match after "true" s with Some r => Return (PyBool true, r) | None =>
  match after "false" s with Some r => Return (PyBool false, r) | None =>
  match scan_number s with
  | Some (Return v, r) => Return (v, r)
  | Some (Raise e, _) => Raise e
  | None =>
  match after "NaN" s with Some r => Return (PyFloat FNaN, r) | None =>
  match after "Infinity" s with Some r => Return (PyFloat (FInf false), r) | None =>
  match after "-Infinity" s with Some r => Return (PyFloat (FInf true), r) | None =>
  Raise JSONDecodeError
  end end end end end end end.

Fixpoint scan_value (fuel depth : nat) (s : string) {struct fuel}
  : result (pyvalue * string) :=
  match fuel with
  | O => Raise RecursionError
  | S fuel =>
      match s with
      | String c r =>
          if Ascii.eqb c "034" then
            match scan_string (S (String.length r)) r with
            | Some (body, r') => Return (PyStr body, r')
            | None => Raise JSONDecodeError
            end
          else if Ascii.eqb c "{" then
            if (recursion_limit <? depth)%nat then Raise RecursionError
            else match skip_ws r with
                 | String "}" r' => Return (PyDict ∅, r')
                 | r' => scan_members fuel depth ∅ r'
                 end
          else if Ascii.eqb c "[" then
            if (recursion_limit <? depth)%nat then Raise RecursionError
            else match skip_ws r with
                 | String "]" r' => Return (PyList [], r')
                 | r' => scan_elems fuel depth [] r'
                 end
          else scan_atom s
      | EmptyString => Raise JSONDecodeError
      end
  end
with scan_members (fuel depth : nat) (acc : gmap string pyvalue)
       (s : string) {struct fuel} : result (pyvalue * string) :=
  match fuel with
  | O => Raise RecursionError
  | S fuel =>
      match s with
      | String "034" r =>
          match scan_string (S (String.length r)) r with
          | Some (key, r1) =>
              match skip_ws r1 with
              | String ":" r2 =>
                  match scan_value fuel (S depth) (skip_ws r2) with
                  | Return (v, r3) =>
                      match skip_ws r3 with
                      | String "," r4 =>
                          scan_members fuel depth (<[key := v]> acc) (skip_ws r4)
                      | String "}" r4 => Return (PyDict (<[key := v]> acc), r4)
                      | _ => Raise JSONDecodeError
                      end
                  | Raise e => Raise e
                  end
              | _ => Raise JSONDecodeError
              end
          | None => Raise JSONDecodeError
          end
      | _ => Raise JSONDecodeError
      end
  end
with scan_elems (fuel depth : nat) (acc : list pyvalue) (s : string)
       {struct fuel} : result (pyvalue * string) :=
  match fuel with
  | O => Raise RecursionError
  | S fuel =>
      match scan_value fuel (S depth) s with
      | Return (v, r) =>
          match skip_ws r with
          | String "," r' => scan_elems fuel depth (acc ++ [v]) (skip_ws r')
          | String "]" r' => Return (PyList (acc ++ [v]), r')
          | _ => Raise JSONDecodeError
          end
      | Raise e => Raise e
      end
  end.

Definition loads (s : string) : result pyvalue :=
  match scan_value (2 * String.length s + 2) 0 (skip_ws s) with
  | Return (v, r) =>
      match skip_ws r with
      | EmptyString => Return v
      | _ => Raise JSONDecodeError
      end
  | Raise e => Raise e
  end.

Definition hex_digit (n : N) : ascii :=
  if (n <? 10)%N then ascii_of_N (48 + n) else ascii_of_N (87 + n).

(** One character of a string, escaped as [ensure_ascii] does. *)
Definition escape_char (c : ascii) : string :=
  let n := PyStr.code c in
  if Ascii.eqb c "034" then String "\" (String "034" EmptyString)
  else if Ascii.eqb c "\" then "\\"
  else if (n =? 10)%N then "\n"
  else if (n =? 13)%N then "\r"
  else if (n =? 9)%N then "\t"
  else if (n =? 8)%N then "\b"
  else if (n =? 12)%N then "\f"
  else if ((32 <=? n) && (n <=? 126))%N then String c EmptyString
  else "\u00" +:+ String (hex_digit (n / 16)) (String (hex_digit (n mod 16)) EmptyString).

Fixpoint escape (s : string) : string :=
  match s with
  | String c s' => escape_char c +:+ escape s'
  | EmptyString => EmptyString
  end.

Definition dumps_string (s : string) : string :=
  dquote +:+ escape s +:+ dquote.

Definition dumps_float (f : pyfloat) : string :=
  match f with
  | FNaN => "NaN"
  | FInf false => "Infinity"
  | FInf true => "-Infinity"
  | FDec m e => pretty m +:+ "e" +:+ pretty e
  end.

(** [", ".join(items)] *)
Fixpoint join (items : list string) : string :=
  match items with
  | [] => EmptyString
  | [x] => x
  | x :: rest => x +:+ ", " +:+ join rest
  end.

Fixpoint dumps (v : pyvalue) : string :=
  match v with
  | PyNone => "null"
  | PyBool true => "true"
  | PyBool false => "false"
  | PyInt z => pretty z
  | PyFloat f => dumps_float f
  | PyStr s => dumps_string s
  | PyList l => "[" +:+ join (map dumps l) +:+ "]"
  | PyDict d =>
      "{" +:+ join (map (fun kv => dumps_string kv.1 +:+ ": " +:+ kv.2)
                        (map_to_list (dumps <$> d))) +:+ "}"
  end.

End JsonRef.

#[export] Instance json_ref : JsonLib :=
  {| json_loads := JsonRef.loads;
     json_dumps := JsonRef.dumps;
     json_loads_empty := eq_refl |}.

(* ===================================================================== *)
(** ** Vocabulary of the statements *)
(* ===================================================================== *)

(** Predicates on strings in which the properties of [strip] and [split]
    are phrased. *)
Fixpoint all_chars (p : ascii -> bool) (s : string) : bool :=
  match s with
  | EmptyString => true
  | String c s' => p c && all_chars p s'
  end.

Definition head_char (s : string) : option ascii :=
  match s with
  | String c _ => Some c
  | EmptyString => None
  end.

Fixpoint last_char (s : string) : option ascii :=
  match s with
  | EmptyString => None
  | String c EmptyString => Some c
  | String _ s' => last_char s'
  end.

Fixpoint drop_last (s : string) : string :=
  match s with
  | EmptyString => EmptyString
  | String _ EmptyString => EmptyString
  | String c s' => String c (drop_last s')
  end.

(** [s] neither starts nor ends with a character satisfying [p]. *)
Definition stripped (p : ascii -> bool) (s : string) : Prop :=
  (forall c, head_char s = Some c -> p c = false) /\
  (forall c, last_char s = Some c -> p c = false).

Definition is_quote (c : ascii) : bool :=
  Ascii.eqb c "034" || Ascii.eqb c "'".

(** The quoting rule in the words of the specification: one layer of
    matching surrounding quote characters is removed, and nothing else. *)
Definition unquote_one_layer (v : string) : string :=
  match v with
  | String q body =>
      if is_quote q && bool_decide (last_char body = Some q)
      then drop_last body else v
  | EmptyString => EmptyString
  end.

(** The pair a line declares, by the parse rule of the specification. *)
Definition spec_env_pair (line : string) : option (string * string) :=
  let t := PyStr.strip line in
  if String.eqb t "" || PyStr.startswith "#" t then None
  else match PyStr.cut "=" t with
       | Some (k, v) =>
           Some (PyStr.strip k, unquote_one_layer (PyStr.strip v))
       | None => None
       end.

(** The process state with another environment or another mapping. *)
Definition with_environ (env : gmap string string) (p : Proc) : Proc :=
  {| environ := env; self := self p |}.

Definition with_config (cfg : gmap string pyvalue) (p : Proc) : Proc :=
  {| environ := environ p;
     self := {| _config := cfg; _loaded := _loaded (self p) |} |}.

(** A process that has just constructed its [EC2Secrets] instance. *)
Definition fresh (env : gmap string string) : Proc :=
  {| environ := env; self := __init__ |}.

(** What one pass of the loop of [_load_env_file] does with a line that
    declares a pair: the trimmed line is cut at its first [=]; the key is the
    trimmed left part; the value is the trimmed right part without its
    leading and trailing double quotes and then without its leading and
    trailing single quotes; the pair goes to [os.environ] unless the name or
    the value is refused. *)
Definition assigns_pair (line : string) (p : Proc) : Prop :=
  exists k v,
    PyStr.strip line = k +:+ "=" +:+ v /\ PyStr.contains "=" k = false /\
    let key := PyStr.strip k in
    let unquoted := PyStr.strip_chars dquote (PyStr.strip v) in
    let value := PyStr.strip_chars squote unquoted in
    stripped PyStr.is_space key /\
    stripped PyStr.is_space (PyStr.strip v) /\
    stripped (fun c => PyStr.contains c dquote) unquoted /\
    stripped (fun c => PyStr.contains c squote) value /\
    (exists l r, PyStr.strip v = l +:+ value +:+ r /\
                 all_chars is_quote l = true /\ all_chars is_quote r = true) /\
    env_line line p =
      if putenv_ok key value
      then (Return tt, with_environ (<[key := value]> (environ p)) p)
      else (Raise (putenv_error key value), p).

(** [K=""a""], a value inside two layers of double quotes. *)
Definition cex_quoted_line : string :=
  "K=" +:+ dquote +:+ dquote +:+ "a" +:+ dquote +:+ dquote.

(** A line with blanks around the key and a quoted value. *)
Definition sample_line : string := "  NAME = 'x y' ".

(** [s] is ["true"] up to the case of its four letters. *)
Definition true_ignoring_case (s : string) : Prop :=
  exists a b c d : ascii,
    s = String a (String b (String c (String d EmptyString))) /\
    (a = "t" \/ a = "T")%char /\ (b = "r" \/ b = "R")%char /\
    (c = "u" \/ c = "U")%char /\ (d = "e" \/ d = "E")%char.

(** A candidate path is usable when it is given, non-empty and exists: the
    test [if path and os.path.exists(path)]. *)
Definition usable (h : Host) (o : option string) : bool :=
  match o with
  | Some path => path_bool o && path_exists h path
  | None => false
  end.


(** The variable is set to a non-empty string: [if os.getenv(name)]. *)
Definition env_set (env : gmap string string) (name : string) : Prop :=
  exists s, env !! name = Some s /\ s <> "".


(** The names of the sections [_build_config] can produce. *)
Definition section_names : gset string :=
  {[ "ANTHROPIC_API_KEY"; "firebase"; "admin"; "aws"; "app" ]}.

(** A host with no file at any path. *)
Definition no_files : Host := {| fs := fun _ => Missing; pw_dir := None |}.

(** The mapping held by the instance. *)
Definition cfg (p : Proc) : gmap string pyvalue := _config (self p).

(** The three variables of the [admin] section, as pairs like those of
    [firebase_env_mapping]. *)
Definition admin_env_mapping : list (string * string) :=
  [ ("email", "ADMIN_EMAIL"); ("password", "ADMIN_PASSWORD");
    ("key", "ADMIN_KEY") ].

(** The dictionary obtained from [d] by writing, for each pair of the
    mapping in turn, the field whose variable is set to a non-empty
    string. *)
Definition fields_from (env : gmap string string)
    (mapping : list (string * string)) (d : gmap string pyvalue)
  : gmap string pyvalue :=
  foldl (fun d kv =>
           if getenv_bool (env !! kv.2)
           then <[kv.1 := of_getenv (env !! kv.2)]> d else d)
        d mapping.

(** What the sections other than [firebase] do to the mapping. *)
Definition cfg_anthropic (env : gmap string string)
    (c : gmap string pyvalue) : gmap string pyvalue :=
  if getenv_bool (env !! "ANTHROPIC_API_KEY")
  then <["ANTHROPIC_API_KEY" := of_getenv (env !! "ANTHROPIC_API_KEY")]> c
  else c.

Definition cfg_admin (env : gmap string string)
    (c : gmap string pyvalue) : gmap string pyvalue :=
  let d := fields_from env admin_env_mapping ∅ in
  if bool_decide (d = ∅) then c else <["admin" := PyDict d]> c.

Definition aws_section (env : gmap string string) : pyvalue :=
  let region := PyStr (default "us-east-1" (env !! "AWS_DEFAULT_REGION")) in
  PyDict
    (if getenv_bool (env !! "AWS_ACCESS_KEY_ID")
     then <["secret_access_key" :=
              PyStr (default "" (env !! "AWS_SECRET_ACCESS_KEY"))]>
            (<["access_key_id" := of_getenv (env !! "AWS_ACCESS_KEY_ID")]>
               {[ "region" := region ]})
     else {[ "region" := region ]}).

Definition app_section (env : gmap string string) (port : Z) : pyvalue :=
  PyDict
    (<["mode" := PyStr (default "production" (env !! "APP_MODE"))]>
       (<["port" := PyInt port]>
          (<["host" := PyStr (default "0.0.0.0" (env !! "APP_HOST"))]>
             {[ "debug" :=
                  PyBool (String.eqb
                            (PyStr.lower (default "false" (env !! "APP_DEBUG")))
                            "true") ]}))).

(** The text [int] is applied to for the port. *)
Definition port_text (env : gmap string string) : string :=
  default "8501" (env !! "APP_PORT").

(** [FIREBASE_CONFIG_JSON] is unset, or holds a text that is not JSON. *)
Definition json_absent_or_invalid `{JsonLib} (env : gmap string string)
  : Prop :=
  match env !! "FIREBASE_CONFIG_JSON" with
  | Some s => json_loads s = Raise JSONDecodeError
  | None => True
  end.

(** The first two steps of [load]: the [.env] file and the Firebase file. *)
Definition load_files `{JsonLib} (h : Host)
    (env_file config_file : option string) : M unit :=
  paths <~ env_paths h env_file ;;
  load_first h paths (_load_env_file h) ;;;
  paths <~ firebase_paths h config_file ;;
  load_first h paths (_load_firebase_config h).

(** Environments used in the concrete evaluations. *)
Definition env_bad_port : gmap string string := {[ "APP_PORT" := "abc" ]}.

Definition env_scalar_json : gmap string string :=
  <["FIREBASE_CONFIG_JSON" := "0"]> {[ "FIREBASE_PROJECT_ID" := "p" ]}.

Definition env_empty_json : gmap string string :=
  <["FIREBASE_CONFIG_JSON" := "{}"]> {[ "FIREBASE_PROJECT_ID" := "p" ]}.


Definition env_sample : gmap string string :=
  <["APP_PORT" := "9090"]>
    (<["APP_DEBUG" := "TRUE"]>
       (<["ADMIN_EMAIL" := "root@example.org"]>
          (<["FIREBASE_PROJECT_ID" := "demo"]> ∅))).


(** A JSON text for [FIREBASE_CONFIG_JSON], and an environment that also
    sets an individual variable. *)
Definition json_sample : string :=
  "{" +:+ dquote +:+ "project_id" +:+ dquote +:+ ": "
      +:+ dquote +:+ "j" +:+ dquote +:+ "}".

Definition env_json_and_vars : gmap string string :=
  <["FIREBASE_CONFIG_JSON" := json_sample]> {[ "FIREBASE_PROJECT_ID" := "p" ]}.

(** A run of [load] on a host without files. *)
Definition sample_run : result EC2Secrets * Proc :=
  load no_files None None (fresh env_sample).

(** A reload after the variable of a section has gone: [load] on a fresh
    instance with [ADMIN_EMAIL] set, then [del os.environ['ADMIN_EMAIL']],
    then [load] again on the same instance. *)
Definition env_admin_only : gmap string string :=
  {[ "ADMIN_EMAIL" := "root@example.org" ]}.

Definition loaded_with_admin : Proc :=
  (load no_files None None (fresh env_admin_only)).2.

Definition reload_after_unset : result EC2Secrets * Proc :=
  load no_files None None
    (with_environ (delete "ADMIN_EMAIL" (environ loaded_with_admin))
       loaded_with_admin).

(** The pair a line of a [.env] file declares, as the loop of
    [_load_env_file] computes it; [None] for the lines it skips. *)
Definition declared (line : string) : option (string * string) :=
  let t := PyStr.strip line in
  if String.eqb t "" || PyStr.startswith "#" t then None
  else match PyStr.cut "=" t with
       | Some (k, v) =>
           Some (PyStr.strip k,
                 PyStr.strip_chars squote
                   (PyStr.strip_chars dquote (PyStr.strip v)))
       | None => None
       end.

(** The lines iteration over a file with this text yields. *)
Definition file_lines (text : string) : list string :=
  PyStr.lines (PyStr.universal_newlines text).

(** An environment as a process has it: every name is non-empty and free of
    ['='], and no name or value holds a NUL character. *)
Definition env_wf (env : gmap string string) : Prop :=
  forall k v, env !! k = Some v -> putenv_ok k v = true.

(** The candidate Firebase paths, in the order [load] lists them. *)
Definition firebase_candidates (h : Host) (config_file : option string)
    (env : gmap string string) : list (option string) :=
  [ config_file; Some "firebase-config.json";
    Some "/etc/dbmigration/firebase-config.json";
    Some (expand_home h env "/.dbmigration/firebase-config.json");
    Some "/opt/dbmigration/firebase-config.json" ].

(** A host whose only file is a Firebase document in the current
    directory, and an environment for it. *)
Definition one_json_file : Host :=
  {| fs := fun path =>
             if String.eqb path "firebase-config.json" then Text "[1]"
             else Missing;
     pw_dir := Some "/home/app" |}.

Definition env_list_json : gmap string string :=
  {[ "FIREBASE_CONFIG_JSON" := "[1]" ]}.

(** The computation keeps the invariant [I] of the process state, whether
    it returns or raises. *)
Definition keeps {A} (I : Proc -> Prop) (m : M A) : Prop :=
  forall p, I p -> I (m p).2.

(** A [.env] file that declares a variable twice, between other lines. *)
Definition dotenv_twice : string :=
  "# settings" +:+ String "010" ("A = 1" +:+ String "010"
    ("B=x" +:+ String "010" ("A=2" +:+ String "010" "C=3"))).

Definition host_dotenv : Host :=
  {| fs := fun path => if String.eqb path ".env" then Text dotenv_twice
                       else Missing;
     pw_dir := None |}.

(** An environment as a deployment with static credentials has it: an API
    key and an access key id, without the secret. *)
Definition env_deploy : gmap string string :=
  <["ANTHROPIC_API_KEY" := "sk-ant-api03-0123456789"]>
    (<["AWS_ACCESS_KEY_ID" := "AKIAEXAMPLE"]>
       (<["ADMIN_PASSWORD" := "secret"]> ∅)).

(** Boolean forms of the side conditions on the lines of a [.env] file:
    every declaration is accepted by [os.environ]; no line declares [k]. *)
Definition lines_accepted (lines : list string) : bool :=
  forallb (fun ln => match declared ln with
                     | Some (k, v) => putenv_ok k v
                     | None => true
                     end) lines.

Definition lines_leave (k : string) (lines : list string) : bool :=
  forallb (fun ln => match declared ln with
                     | Some (k', _) => negb (String.eqb k' k)
                     | None => true
                     end) lines.

(* ===================================================================== *)
(** ** Facts about the string operations *)
(* ===================================================================== *)

Section string_facts.

Implicit Types (s t : string) (c : ascii) (p : ascii -> bool).

Lemma app_cons c s t : String c s +:+ t = String c (s +:+ t).
Proof. reflexivity. Qed.

Lemma app_empty_r s : s +:+ "" = s.
Proof. induction s as [|c s IH]; [done|]. by rewrite app_cons, IH. Qed.

Lemma app_assoc' s t u : (s +:+ t) +:+ u = s +:+ (t +:+ u).
Proof. induction s as [|c s IH]; [done|]. by rewrite !app_cons, IH. Qed.

Lemma all_chars_app p s t :
  all_chars p (s +:+ t) = all_chars p s && all_chars p t.
Proof.
  induction s as [|c s IH]; [done|].
  rewrite app_cons. simpl. rewrite IH. by destruct (p c).
Qed.

(** [lstrip] removes a prefix made of [p]-characters, and the longest. *)
Lemma lstrip_by_spec p s :
  exists l, s = l +:+ PyStr.lstrip_by p s /\ all_chars p l = true /\
            (forall c, head_char (PyStr.lstrip_by p s) = Some c -> p c = false).
Proof.
  induction s as [|a s (l & Hs & Hl & Hh)]; simpl.
  - exists "". split_and!; [done..|]. intros c; discriminate.
  - destruct (p a) eqn:Hp.
    + exists (String a l). split_and!; [|by simpl; rewrite Hp|done].
      by rewrite app_cons, <-Hs.
    + exists "". split_and!; [done..|]. simpl. by intros c [= <-].
Qed.

Lemma rstrip_by_empty p s :
  PyStr.rstrip_by p s = "" -> all_chars p s = true.
Proof.
  induction s as [|a s IH]; [done|]. simpl.
  destruct (PyStr.rstrip_by p s) eqn:Hr; [|discriminate].
  destruct (p a); [|discriminate]. intros _. by apply IH.
Qed.

(** [rstrip] removes a suffix made of [p]-characters, and the longest. *)
Lemma rstrip_by_spec p s :
  exists r, s = PyStr.rstrip_by p s +:+ r /\ all_chars p r = true /\
            (forall c, last_char (PyStr.rstrip_by p s) = Some c -> p c = false).
Proof.
  induction s as [|a s (r & Hs & Hr & Hl)]; simpl.
  - exists "". split_and!; [done..|]. intros c; discriminate.
  - destruct (PyStr.rstrip_by p s) as [|b u] eqn:Hu.
    + destruct (p a) eqn:Hp.
      * exists (String a s). split_and!; [done| |intros c; discriminate].
        simpl. rewrite Hp. simpl. by apply rstrip_by_empty.
      * exists r. split_and!; [by rewrite Hs at 1|done|].
        simpl. by intros c [= <-].
    + exists r. split_and!; [by rewrite Hs at 1|done|].
      intros c Hc. apply Hl. by destruct u.
Qed.

Lemma rstrip_by_head p s c :
  head_char (PyStr.rstrip_by p s) = Some c -> head_char s = Some c.
Proof.
  destruct s as [|a s]; [done|]. simpl.
  destruct (PyStr.rstrip_by p s); [destruct (p a)|]; simpl; congruence.
Qed.

(** [strip] removes characters satisfying [p] from both ends, only those,
    and as many as there are. *)
Lemma strip_by_spec p s :
  exists l r, s = l +:+ PyStr.strip_by p s +:+ r /\
              all_chars p l = true /\ all_chars p r = true /\
              stripped p (PyStr.strip_by p s).
Proof.
  unfold PyStr.strip_by.
  destruct (lstrip_by_spec p s) as (l & Hs & Hl & Hh).
  destruct (rstrip_by_spec p (PyStr.lstrip_by p s)) as (r & Hs' & Hr & Hla).
  exists l, r. split_and!; [|done..|].
  - by rewrite <-Hs'.
  - split; [|done]. intros c Hc. by apply Hh, rstrip_by_head with p.
Qed.

Lemma cut_spec c s k v :
  PyStr.cut c s = Some (k, v) ->
  s = k +:+ String c v /\ PyStr.contains c k = false.
Proof.
  revert k. induction s as [|a s IH]; intros k; [done|]. simpl.
  destruct (Ascii.eqb a c) eqn:Hac.
  - intros [= <- <-]. apply Ascii.eqb_eq in Hac as ->. done.
  - destruct (PyStr.cut c s) as [[k' v']|]; [|done].
    intros [= <- <-]. destruct (IH k' eq_refl) as [-> Hk].
    split; [done|]. simpl. by rewrite Hac.
Qed.

Lemma cut_contains c s :
  PyStr.contains c s = true -> is_Some (PyStr.cut c s).
Proof.
  induction s as [|a s IH]; [done|]. simpl.
  destruct (Ascii.eqb a c); [by eexists|]. simpl. intros Hs.
  destruct (IH Hs) as [[k v] ->]. by eexists.
Qed.

Lemma cut_None c s :
  PyStr.contains c s = false -> PyStr.cut c s = None.
Proof.
  induction s as [|a s IH]; [done|]. simpl.
  destruct (Ascii.eqb a c); [done|]. simpl. intros Hs. by rewrite IH.
Qed.

Local Ltac by_cases_on_char c :=
  destruct c as [[] [] [] [] [] [] [] []]; vm_compute;
  (split; [intros [=]; (by left) || (by right) | intros [[=]|[=]]; done])
  || (split; [intros [=] | intros [[=]|[=]]]).

Lemma lower_char_t c : PyStr.lower_char c = "t"%char <-> (c = "t" \/ c = "T")%char.
Proof. by_cases_on_char c. Qed.

Lemma lower_char_r c : PyStr.lower_char c = "r"%char <-> (c = "r" \/ c = "R")%char.
Proof. by_cases_on_char c. Qed.

Lemma lower_char_u c : PyStr.lower_char c = "u"%char <-> (c = "u" \/ c = "U")%char.
Proof. by_cases_on_char c. Qed.

Lemma lower_char_e c : PyStr.lower_char c = "e"%char <-> (c = "e" \/ c = "E")%char.
Proof. by_cases_on_char c. Qed.

(** The test of the [debug] flag, [s.lower() == 'true'], accepts the
    sixteen spellings of the word and nothing else. *)
Lemma lower_is_true s :
  PyStr.lower s = "true" <-> true_ignoring_case s.
Proof.
  split.
  - destruct s as [|a [|b [|c [|d [|]]]]]; simpl; try discriminate.
    intros [= Ha Hb Hc Hd]. exists a, b, c, d.
    by rewrite <-lower_char_t, <-lower_char_r, <-lower_char_u, <-lower_char_e.
  - intros (a & b & c & d & -> & Ha & Hb & Hc & Hd). simpl.
    apply lower_char_t in Ha. apply lower_char_r in Hb.
    apply lower_char_u in Hc. apply lower_char_e in Hd. congruence.
Qed.

Lemma all_chars_impl p q s :
  (forall c, p c = true -> q c = true) ->
  all_chars p s = true -> all_chars q s = true.
Proof.
  intros Hpq. induction s as [|a s IH]; [done|]. simpl.
  rewrite !andb_true_iff. intros [Ha Hs]. auto.
Qed.

Lemma dquote_is_quote c : PyStr.contains c dquote = true -> is_quote c = true.
Proof.
  unfold is_quote, dquote, PyStr.contains. rewrite orb_false_r.
  rewrite Ascii.eqb_sym. by intros ->.
Qed.

Lemma squote_is_quote c : PyStr.contains c squote = true -> is_quote c = true.
Proof.
  unfold is_quote, squote, PyStr.contains. rewrite orb_false_r.
  rewrite Ascii.eqb_sym. intros ->. apply orb_true_r.
Qed.

End string_facts.

(* ===================================================================== *)
(** ** The [.env] parser *)
(* ===================================================================== *)

(** C2, as stated, fails: the value [""a""] loses both layers of double
    quotes, where the rule of one matching layer keeps the inner one; and a
    line with an empty key is not assigned at all. *)
Lemma env_line_one_layer_counterexample :
  PyStr.contains "=" cex_quoted_line = true /\
  spec_env_pair cex_quoted_line = Some ("K", dquote +:+ "a" +:+ dquote) /\
  env_line cex_quoted_line (fresh ∅)
    = (Return tt, with_environ {[ "K" := "a" ]} (fresh ∅)) /\
  environ (env_line cex_quoted_line (fresh ∅)).2 !! "K"
    <> snd <$> spec_env_pair cex_quoted_line /\
  spec_env_pair "=x" = Some ("", "x") /\
  env_line "=x" (fresh ∅) = (Raise OSError, fresh ∅).
Proof.
  split_and!; [reflexivity..| |reflexivity|reflexivity].
  vm_compute. discriminate.
Qed.

(** C2 (amended): one pass of the loop of [_load_env_file].  A line that is
    empty after trimming, starts with [#] or has no [=] changes nothing.  Any
    other line is cut at its first [=]; the key is the trimmed left part, the
    value is the trimmed right part with every leading and trailing double
    quote and then every leading and trailing single quote removed; the pair
    is written to [os.environ] over whatever was there, unless [os.environ]
    refuses the name or the value.  The loop takes the lines in order and
    stops at the first assignment that is refused. *)
Theorem env_line_parse_rule (line : string) (p : Proc) :
  let t := PyStr.strip line in
  ((t = "" \/ PyStr.startswith "#" t = true \/ PyStr.contains "=" t = false) ->
   env_line line p = (Return tt, p)) /\
  (t <> "" -> PyStr.startswith "#" t = false -> PyStr.contains "=" t = true ->
   assigns_pair line p) /\
  (forall rest,
      for_each (line :: rest) env_line p =
      match env_line line p with
      | (Return _, p1) => for_each rest env_line p1
      | (Raise e, p1) => (Raise e, p1)
      end).
Proof.
  intros t. split_and!.
  - unfold env_line. fold t. intros [-> | [Hc | Hn]]; [done| |].
    + rewrite Hc. by rewrite orb_true_r.
    + rewrite Hn. by destruct (_ || _).
  - intros Ht Hc He. unfold assigns_pair. fold t.
    destruct (cut_contains _ _ He) as [[k v] Hkv].
    destruct (cut_spec _ _ _ _ Hkv) as [Hsplit Hk].
    exists k, v. split; [done|]. split; [done|]. cbv zeta.
    destruct (strip_by_spec PyStr.is_space k) as (_ & _ & _ & _ & _ & Hsk).
    destruct (strip_by_spec PyStr.is_space v) as (_ & _ & _ & _ & _ & Hsv).
    destruct (strip_by_spec (fun c => PyStr.contains c dquote) (PyStr.strip v))
      as (l1 & r1 & E1 & Hl1 & Hr1 & Hs1).
    destruct (strip_by_spec (fun c => PyStr.contains c squote)
                (PyStr.strip_chars dquote (PyStr.strip v)))
      as (l2 & r2 & E2 & Hl2 & Hr2 & Hs2).
    split_and!; [done..| |].
    + exists (l1 +:+ l2), (r2 +:+ r1). split_and!.
      * etrans; [exact E1|]. rewrite !app_assoc'. f_equal.
        transitivity
          ((l2 +:+ PyStr.strip_chars squote
                     (PyStr.strip_chars dquote (PyStr.strip v)) +:+ r2) +:+ r1);
          [f_equal; exact E2 | by rewrite !app_assoc'].
      * rewrite all_chars_app. apply andb_true_iff. split.
        -- eapply all_chars_impl, Hl1. apply dquote_is_quote.
        -- eapply all_chars_impl, Hl2. apply squote_is_quote.
      * rewrite all_chars_app. apply andb_true_iff. split.
        -- eapply all_chars_impl, Hr2. apply squote_is_quote.
        -- eapply all_chars_impl, Hr1. apply dquote_is_quote.
    + unfold env_line. fold t. rewrite Hc, He.
      destruct (String.eqb t "") eqn:E; [by apply String.eqb_eq in E|].
      simpl. unfold PyStr.split1. rewrite Hkv.
      unfold os_environ_setitem, with_environ. by destruct (putenv_ok _ _).
  - intros rest. simpl. unfold bind.
    by destruct (env_line line p) as [[[]|e] p1].
Qed.

Lemma env_line_parse_rule_witness :
  env_line "# NAME=1" (fresh ∅) = (Return tt, fresh ∅) /\
  assigns_pair sample_line (fresh ∅).
Proof.
  split.
  - apply (env_line_parse_rule "# NAME=1" (fresh ∅)). right; left. reflexivity.
  - apply (env_line_parse_rule sample_line (fresh ∅)).
    + vm_compute. discriminate.
    + reflexivity.
    + reflexivity.
Defined.

(* ===================================================================== *)
(** ** The candidate files *)
(* ===================================================================== *)

Section candidates.

Context (h : Host).
Implicit Types (paths : list (option string)) (loader : string -> M unit).

Lemma load_first_cons o paths loader :
  load_first h (o :: paths) loader =
  if usable h o then loader (default "" o) else load_first h paths loader.
Proof. destruct o as [path|]; [|done]. simpl. by destruct (_ && _). Qed.

(** The loop runs the loader on the first usable candidate, and on that
    one only. *)
Lemma load_first_at paths loader i path :
  paths !! i = Some (Some path) ->
  usable h (Some path) = true ->
  (forall j o, (j < i)%nat -> paths !! j = Some o -> usable h o = false) ->
  load_first h paths loader = loader path.
Proof.
  revert i. induction paths as [|o paths IH]; intros i Hi Hu Hlt; [done|].
  rewrite load_first_cons. destruct i as [|i]; simpl in Hi.
  - injection Hi as ->. by rewrite Hu.
  - rewrite (Hlt 0%nat o) by (done || lia).
    apply (IH i); [done..|]. intros j o' Hj Ho'.
    apply (Hlt (S j)); [lia|done].
Qed.

Lemma load_first_none paths loader :
  (forall o, o ∈ paths -> usable h o = false) ->
  load_first h paths loader = ret tt.
Proof.
  induction paths as [|o paths IH]; intros Hall; [done|].
  rewrite load_first_cons, (Hall o) by left.
  apply IH. intros o' Ho'. apply Hall. by right.
Qed.

End candidates.




(* ===================================================================== *)
(** ** The sections of [_build_config], one by one *)
(* ===================================================================== *)

Lemma getenv_bool_true (o : option string) :
  getenv_bool o = true <-> exists s, o = Some s /\ s <> "".
Proof.
  unfold getenv_bool. destruct o as [s|]; simpl; [|split; [done|by intros (?&?&?)]].
  destruct (String.eqb_spec s ""); simpl.
  - split; [done|]. intros (? & [= <-] & ?). done.
  - split; [eauto|done].
Qed.

Lemma getenv_bool_of_getenv (o : option string) :
  getenv_bool o = true -> exists s, of_getenv o = PyStr s /\ o = Some s /\ s <> "".
Proof. intros (s & -> & Hs)%getenv_bool_true. eauto. Qed.

Lemma py_bool_empty_dict : py_bool (PyDict ∅) = false.
Proof. simpl. by rewrite bool_decide_eq_true_2. Qed.

Lemma with_config_id (p : Proc) : with_config (cfg p) p = p.
Proof. by destruct p as [env [c l]]. Qed.

Lemma environ_with_config c p : environ (with_config c p) = environ p.
Proof. done. Qed.

Lemma cfg_with_config c p : cfg (with_config c p) = c.
Proof. done. Qed.

Lemma with_config_twice c c' p :
  with_config c (with_config c' p) = with_config c p.
Proof. done. Qed.

Lemma set_from_env_dict (d : gmap string pyvalue) (key var : string) (p : Proc) :
  set_from_env (PyDict d) key var p
  = (Return (PyDict (fields_from (environ p) [(key, var)] d)), p).
Proof.
  unfold set_from_env, bind, os_getenv, fields_from. simpl.
  by destruct (getenv_bool _).
Qed.

Lemma from_env_mapping_dict mapping (d : gmap string pyvalue) (p : Proc) :
  from_env_mapping mapping (PyDict d) p
  = (Return (PyDict (fields_from (environ p) mapping d)), p).
Proof.
  revert d. induction mapping as [|[key var] mapping IH]; intros d; [done|].
  simpl. unfold bind. rewrite set_from_env_dict. simpl. by rewrite IH.
Qed.

(** On a value that is not a dictionary the loop fails at the first
    variable that is set, and returns the value when none is. *)
Lemma from_env_mapping_other mapping (v : pyvalue) (p : Proc) :
  (forall d, v <> PyDict d) ->
  from_env_mapping mapping v p
  = if existsb (fun kv => getenv_bool (environ p !! kv.2)) mapping
    then (Raise TypeError, p) else (Return v, p).
Proof.
  intros Hv. induction mapping as [|[key var] mapping IH]; [done|].
  simpl. unfold set_from_env, bind, os_getenv. simpl.
  destruct (getenv_bool (environ p !! var)) eqn:Hg; simpl.
  - destruct v as [| | | | | |d0]; try done. by destruct (Hv d0).
  - apply IH.
Qed.

Lemma fields_from_snoc env mapping key var d :
  fields_from env (mapping ++ [(key, var)]) d
  = fields_from env [(key, var)] (fields_from env mapping d).
Proof. unfold fields_from. by rewrite foldl_app. Qed.

Lemma fields_from_lookup_notin env mapping d key :
  key ∉ mapping.*1 -> fields_from env mapping d !! key = d !! key.
Proof.
  revert d. induction mapping as [|[k var] mapping IH]; intros d Hk; [done|].
  rewrite fmap_cons, not_elem_of_cons in Hk. destruct Hk as [Hne Hk].
  change (fields_from env ((k, var) :: mapping) d)
    with (fields_from env mapping (fields_from env [(k, var)] d)).
  rewrite IH by done. unfold fields_from. simpl.
  destruct (getenv_bool _); [|done]. by rewrite lookup_insert_ne.
Qed.

(** A field of the result is either written from its variable or was in the
    dictionary before. *)
Lemma fields_from_lookup env mapping d key var :
  NoDup mapping.*1 -> (key, var) ∈ mapping ->
  fields_from env mapping d !! key
  = if getenv_bool (env !! var) then Some (of_getenv (env !! var)) else d !! key.
Proof.
  revert d. induction mapping as [|[k w] mapping IH]; intros d Hnd Hin.
  { by apply elem_of_nil in Hin. }
  rewrite fmap_cons in Hnd. apply NoDup_cons in Hnd as [Hk Hnd].
  change (fields_from env ((k, w) :: mapping) d)
    with (fields_from env mapping (fields_from env [(k, w)] d)).
  apply elem_of_cons in Hin as [[= <- <-]|Hin].
  - rewrite fields_from_lookup_notin by done. unfold fields_from. simpl.
    destruct (getenv_bool _); [|done]. by rewrite lookup_insert_eq.
  - rewrite IH by done. destruct (getenv_bool (env !! var)); [done|].
    unfold fields_from. simpl. destruct (getenv_bool _); [|done].
    rewrite lookup_insert_ne; [done|]. intros ->. apply Hk.
    apply list_elem_of_fmap. by exists (key, var).
Qed.

Lemma fields_from_nonempty env mapping d :
  d <> ∅ -> fields_from env mapping d <> ∅.
Proof.
  revert d. induction mapping as [|[k w] mapping IH]; intros d Hd; [done|].
  change (fields_from env ((k, w) :: mapping) d)
    with (fields_from env mapping (fields_from env [(k, w)] d)).
  apply IH. unfold fields_from. simpl. destruct (getenv_bool _); [|done].
  apply insert_non_empty.
Qed.

(** No field is written exactly when no variable of the mapping is set. *)
Lemma fields_from_empty env mapping :
  fields_from env mapping ∅ = ∅ <->
  forall kv, kv ∈ mapping -> getenv_bool (env !! kv.2) = false.
Proof.
  induction mapping as [|[k w] mapping IH].
  { split; [|done]. intros _ kv Hkv. by apply elem_of_nil in Hkv. }
  change (fields_from env ((k, w) :: mapping) ∅)
    with (fields_from env mapping (fields_from env [(k, w)] ∅)).
  unfold fields_from at 2. simpl. destruct (getenv_bool (env !! w)) eqn:Hw.
  - split.
    + intros E. exfalso. eapply fields_from_nonempty, E. apply insert_non_empty.
    + intros Hall. specialize (Hall (k, w)). simpl in Hall.
      rewrite Hall in Hw by left. done.
  - rewrite IH. split.
    + intros Hall kv [->|Hkv]%elem_of_cons; [done|auto].
    + intros Hall kv Hkv. apply Hall. by right.
Qed.

Lemma fields_from_nonempty_inv env mapping :
  fields_from env mapping ∅ <> ∅ ->
  exists kv, kv ∈ mapping /\ env_set env kv.2.
Proof.
  intros Hne.
  destruct (existsb (fun kv => getenv_bool (env !! kv.2)) mapping) eqn:Hex.
  - apply existsb_exists in Hex as (kv & Hin & Hkv).
    exists kv. split; [by apply list_elem_of_In|]. by apply getenv_bool_true.
  - exfalso. apply Hne, fields_from_empty. intros kv Hkv.
    destruct (getenv_bool (env !! kv.2)) eqn:Hg; [|done].
    assert (existsb (fun kv => getenv_bool (env !! kv.2)) mapping = true) as E.
    { apply existsb_exists. exists kv. split; [by apply list_elem_of_In|done]. }
    congruence.
Qed.

Section build.

Context `{JsonLib}.
Implicit Types (p : Proc).

Local Arguments from_env_mapping : simpl never.
Local Arguments fields_from : simpl never.

Lemma build_anthropic_run p :
  build_anthropic p
  = (Return tt, with_config (cfg_anthropic (environ p) (cfg p)) p).
Proof.
  unfold build_anthropic, bind, os_getenv, cfg_anthropic. simpl.
  destruct (getenv_bool _); [done|]. by rewrite with_config_id.
Qed.

Lemma build_admin_run p :
  build_admin p
  = (Return tt, with_config (cfg_admin (environ p) (cfg p)) p).
Proof.
  unfold build_admin. cbv zeta. unfold bind.
  do 3 (rewrite set_from_env_dict; cbv beta iota zeta).
  change (fields_from (environ p) [("key", "ADMIN_KEY")]
            (fields_from (environ p) [("password", "ADMIN_PASSWORD")]
               (fields_from (environ p) [("email", "ADMIN_EMAIL")] ∅)))
    with (fields_from (environ p) admin_env_mapping ∅).
  unfold when, cfg_admin. simpl.
  destruct (bool_decide _); [|done]. by rewrite with_config_id.
Qed.

Lemma build_aws_run p :
  build_aws p
  = (Return tt, with_config (<["aws" := aws_section (environ p)]> (cfg p)) p).
Proof.
  unfold build_aws, bind, os_getenv_default, os_getenv, aws_section. simpl.
  by destruct (getenv_bool _).
Qed.

Lemma build_app_run p :
  build_app p
  = match PyStr.int (port_text (environ p)) with
    | Some port =>
        (Return tt,
         with_config (<["app" := app_section (environ p) port]> (cfg p)) p)
    | None => (Raise ValueError, p)
    end.
Proof.
  unfold build_app, bind, os_getenv_default, port_text, app_section. simpl.
  by destruct (PyStr.int _).
Qed.

(** The value of the local [firebase_config] after the JSON attempt. *)
Lemma build_firebase_json p s v :
  environ p !! "FIREBASE_CONFIG_JSON" = Some s ->
  json_loads s = Return v -> py_bool v = true ->
  build_firebase p = (Return tt, with_config (<["firebase" := v]> (cfg p)) p).
Proof.
  intros Hs Hv Hb. unfold build_firebase, bind, os_getenv. simpl.
  rewrite Hs. unfold getenv_bool. simpl.
  destruct (String.eqb_spec s "") as [->|Hne]; simpl.
  { rewrite json_loads_empty in Hv. done. }
  rewrite Hs, Hv. simpl. rewrite Hb. simpl. by rewrite Hb.
Qed.

Lemma build_firebase_env p :
  json_absent_or_invalid (environ p) ->
  build_firebase p
  = (Return tt,
     let d := fields_from (environ p) firebase_env_mapping ∅ in
     if bool_decide (d = ∅) then p
     else with_config (<["firebase" := PyDict d]> (cfg p)) p).
Proof.
  unfold json_absent_or_invalid. intros Hj.
  assert ((fc <~ from_env_mapping firebase_env_mapping (PyDict ∅) ;;
           when (py_bool fc) (config_setitem "firebase" fc)) p
          = (Return tt,
             let d := fields_from (environ p) firebase_env_mapping ∅ in
             if bool_decide (d = ∅) then p
             else with_config (<["firebase" := PyDict d]> (cfg p)) p)) as Hloop.
  { unfold bind. rewrite from_env_mapping_dict. unfold when. simpl.
    by destruct (bool_decide _). }
  unfold build_firebase. cbv zeta. unfold bind at 1. unfold os_getenv at 1.
  cbv beta iota. unfold getenv_bool.
  destruct (environ p !! "FIREBASE_CONFIG_JSON") as [s|] eqn:Hs; simpl.
  - destruct (String.eqb s ""); simpl.
    + unfold bind at 1. simpl. rewrite bool_decide_eq_true_2 by done. exact Hloop.
    + unfold bind at 1. unfold bind at 1. unfold os_getenv. simpl.
      rewrite Hs, Hj. simpl. rewrite bool_decide_eq_true_2 by done. exact Hloop.
  - unfold bind at 1. simpl. rewrite bool_decide_eq_true_2 by done. exact Hloop.
Qed.

(** The block in two stages: the JSON attempt, then the fallback and the
    assignment. *)
Lemma build_firebase_stages p :
  build_firebase p =
  match
    (if getenv_bool (environ p !! "FIREBASE_CONFIG_JSON") then
       match environ p !! "FIREBASE_CONFIG_JSON" with
       | Some s =>
           match json_loads s with
           | Return decoded => Return decoded
           | Raise JSONDecodeError => Return (PyDict ∅)
           | Raise e => Raise e
           end
       | None => Raise TypeError
       end
     else Return (PyDict ∅))
  with
  | Return fc =>
      (fc' <~ (if negb (py_bool fc)
               then from_env_mapping firebase_env_mapping fc else ret fc) ;;
       when (py_bool fc') (config_setitem "firebase" fc')) p
  | Raise e => (Raise e, p)
  end.
Proof.
  unfold build_firebase. cbv zeta. unfold bind at 1. unfold os_getenv at 1.
  cbv beta iota.
  destruct (getenv_bool (environ p !! "FIREBASE_CONFIG_JSON")).
  - unfold bind at 1. unfold bind at 1. unfold os_getenv. cbv beta iota.
    destruct (environ p !! "FIREBASE_CONFIG_JSON") as [s|]; [|done].
    destruct (json_loads s) as [v|[]]; done.
  - done.
Qed.

(** Whatever the decoder does, the block either leaves the state alone or
    writes a truthy value under ["firebase"], and then some Firebase variable
    is set. *)
Lemma build_firebase_cases p :
  (exists r, build_firebase p = (r, p)) \/
  (exists v, py_bool v = true /\
     build_firebase p = (Return tt, with_config (<["firebase" := v]> (cfg p)) p) /\
     (env_set (environ p) "FIREBASE_CONFIG_JSON" \/
      exists kv, kv ∈ firebase_env_mapping /\ env_set (environ p) kv.2)).
Proof.
  assert (forall v0, py_bool v0 = false ->
            (exists r, (v <~ (if negb (py_bool v0)
                              then from_env_mapping firebase_env_mapping v0
                              else ret v0) ;;
                        when (py_bool v) (config_setitem "firebase" v)) p = (r, p)) \/
            (exists v, py_bool v = true /\
               (v <~ (if negb (py_bool v0)
                      then from_env_mapping firebase_env_mapping v0
                      else ret v0) ;;
                when (py_bool v) (config_setitem "firebase" v)) p
               = (Return tt, with_config (<["firebase" := v]> (cfg p)) p) /\
               exists kv, kv ∈ firebase_env_mapping /\ env_set (environ p) kv.2))
    as Hloop.
  { intros v0 Hv0. rewrite Hv0. cbv beta iota delta [negb]. unfold bind.
    assert ((exists d, v0 = PyDict d) \/ (forall d, v0 <> PyDict d)) as [[d ->]|Hnd].
    { destruct v0; (by left; eexists) || (by right). }
    - rewrite from_env_mapping_dict. simpl in Hv0.
      apply negb_false_iff, bool_decide_eq_true in Hv0 as ->.
      unfold when. simpl.
      destruct (bool_decide_reflect
                  (fields_from (environ p) firebase_env_mapping ∅ = ∅))
        as [E|E]; simpl.
      + left. by eexists.
      + right. exists (PyDict (fields_from (environ p) firebase_env_mapping ∅)).
        split; [by apply negb_true_iff, bool_decide_eq_false|].
        split; [done|]. by apply fields_from_nonempty_inv.
    - rewrite from_env_mapping_other by done.
      left. destruct (existsb _ _); [by eexists|]. unfold when. rewrite Hv0.
      by eexists. }
  rewrite build_firebase_stages.
  destruct (getenv_bool (environ p !! "FIREBASE_CONFIG_JSON")) eqn:Hg.
  - apply getenv_bool_true in Hg as (s & Hs & Hne). rewrite Hs.
    destruct (json_loads s) as [v|e] eqn:Hl.
    + destruct (py_bool v) eqn:Hv.
      * right. exists v. split; [done|]. unfold bind, ret, when. simpl.
        rewrite Hv. simpl. rewrite ?Hv. split; [done|]. left.
        exists s. split; assumption.
      * pose proof (Hloop v Hv) as HL. rewrite Hv in HL.
        destruct HL as [Hr|(w & Hw & Hrun & Hkv)]; [left; exact Hr|].
        right. exists w. split_and!; [done|exact Hrun|by right].
    + destruct e; try (left; by eexists).
      destruct (Hloop (PyDict ∅) py_bool_empty_dict)
        as [Hr|(w & Hw & Hrun & Hkv)]; [left; exact Hr|].
      right. exists w. split_and!; [done|exact Hrun|by right].
  - destruct (Hloop (PyDict ∅) py_bool_empty_dict)
      as [Hr|(w & Hw & Hrun & Hkv)]; [left; exact Hr|].
    right. exists w. split_and!; [done|exact Hrun|by right].
Qed.

End build.

(* ===================================================================== *)
(** ** [_build_config] and [load] as a whole *)
(* ===================================================================== *)

Section whole.

Context `{JsonLib}.
Implicit Types (p : Proc) (h : Host).

(** The assembly: the first section cannot fail, the second can, and then
    the fourth and the third cannot and the fifth can. *)
Lemma _build_config_run p :
  _build_config p =
  let env := environ p in
  match build_firebase (with_config (cfg_anthropic env (cfg p)) p) with
  | (Return _, p2) =>
      let c := <["aws" := aws_section env]> (cfg_admin env (cfg p2)) in
      match PyStr.int (port_text env) with
      | Some port =>
          (Return tt, with_config (<["app" := app_section env port]> c) p)
      | None => (Raise ValueError, with_config c p)
      end
  | (Raise e, p2) => (Raise e, p2)
  end.
Proof.
  unfold _build_config. unfold bind at 1. rewrite build_anthropic_run.
  unfold bind at 1. cbv zeta.
  destruct (build_firebase_cases (with_config (cfg_anthropic (environ p) (cfg p)) p))
    as [[r ->]|(v & _ & -> & _)].
  - destruct r as [[]|e]; [|done].
    unfold bind at 1. rewrite build_admin_run.
    unfold bind at 1. rewrite build_aws_run. rewrite build_app_run.
    simpl. by destruct (PyStr.int _).
  - unfold bind at 1. rewrite build_admin_run.
    unfold bind at 1. rewrite build_aws_run. rewrite build_app_run.
    simpl. by destruct (PyStr.int _).
Qed.

(** The outcomes of the assembly, with the mapping each one leaves. *)
Lemma _build_config_cases p :
  let env := environ p in
  let c1 := cfg_anthropic env (cfg p) in
  exists c2,
    (c2 = c1 \/
     exists v, py_bool v = true /\ c2 = <["firebase" := v]> c1 /\
       (env_set env "FIREBASE_CONFIG_JSON" \/
        exists kv, kv ∈ firebase_env_mapping /\ env_set env kv.2)) /\
    let c4 := <["aws" := aws_section env]> (cfg_admin env c2) in
    ((exists e, c2 = c1 /\ _build_config p = (Raise e, with_config c1 p)) \/
     (PyStr.int (port_text env) = None /\
      _build_config p = (Raise ValueError, with_config c4 p)) \/
     (exists port, PyStr.int (port_text env) = Some port /\
        _build_config p
        = (Return tt, with_config (<["app" := app_section env port]> c4) p))).
Proof.
  cbv zeta. rewrite _build_config_run. cbv zeta.
  set (env := environ p). set (c1 := cfg_anthropic env (cfg p)).
  destruct (build_firebase_cases (with_config c1 p))
    as [[r ->]|(v & Hv & -> & Hset)].
  - exists c1. split; [by left|]. destruct r as [[]|e].
    + simpl. destruct (PyStr.int (port_text env)) as [port|] eqn:Hp.
      * right; right. by exists port.
      * right; left. done.
    + left. by exists e.
  - exists (<["firebase" := v]> c1). split; [right; by exists v|].
    simpl. destruct (PyStr.int (port_text env)) as [port|] eqn:Hp.
    + right; right. by exists port.
    + right; left. done.
Qed.

Lemma env_line_run line p :
  exists r env', env_line line p = (r, with_environ env' p).
Proof.
  assert (p = with_environ (environ p) p) as Hp by (by destruct p).
  unfold env_line. destruct (_ || _); [exists (Return tt), (environ p); by rewrite <-Hp|].
  destruct (PyStr.contains _ _); [|exists (Return tt), (environ p); by rewrite <-Hp].
  destruct (PyStr.split1 _ _) as [|k [|v [|]]];
    try (exists (Raise ValueError), (environ p); by rewrite <-Hp).
  unfold os_environ_setitem. destruct (putenv_ok _ _).
  - by eexists _, _.
  - eexists _, (environ p). by rewrite <-Hp.
Qed.

Lemma for_each_env_line_run lines p :
  exists r env', for_each lines env_line p = (r, with_environ env' p).
Proof.
  revert p. induction lines as [|line lines IH]; intros p.
  - exists (Return tt), (environ p). by destruct p.
  - simpl. unfold bind. destruct (env_line_run line p) as (r & env1 & ->).
    destruct r as [[]|e]; [|by eexists _, _].
    destruct (IH (with_environ env1 p)) as (r & env2 & ->). by eexists _, _.
Qed.

Lemma _load_env_file_run h path p :
  exists env', _load_env_file h path p = (Return tt, with_environ env' p).
Proof.
  unfold _load_env_file, try_except, bind, open_read.
  destruct (fs h path) as [| |text];
    try (exists (environ p); by destruct p).
  simpl. destruct (for_each_env_line_run (PyStr.lines (PyStr.universal_newlines text)) p)
    as (r & env' & ->).
  exists env'. by destruct r as [[]|e].
Qed.

Lemma _load_firebase_config_run h path p :
  exists env', _load_firebase_config h path p = (Return tt, with_environ env' p).
Proof.
  unfold _load_firebase_config, try_except, bind, open_read.
  destruct (fs h path) as [| |text];
    try (exists (environ p); by destruct p).
  simpl. destruct (json_loads _) as [v|e]; [|exists (environ p); by destruct p].
  unfold os_environ_setitem. destruct (putenv_ok _ _).
  - by eexists.
  - exists (environ p). by destruct p.
Qed.

Lemma load_first_run h paths (loader : string -> M unit) p :
  (forall path q, exists env', loader path q = (Return tt, with_environ env' q)) ->
  exists env', load_first h paths loader p = (Return tt, with_environ env' p).
Proof.
  intros Hl. induction paths as [|o paths IH].
  - exists (environ p). by destruct p.
  - rewrite load_first_cons. destruct (usable h o); [apply Hl|apply IH].
Qed.

(** Reading the files changes [os.environ] and nothing else, and never
    fails. *)
Lemma load_files_run h env_file config_file p :
  exists env',
    load_files h env_file config_file p = (Return tt, with_environ env' p).
Proof.
  unfold load_files. unfold bind at 1. unfold env_paths at 1, bind at 1.
  unfold expanduser at 1, ret at 1. cbv beta iota.
  unfold bind at 1.
  lazymatch goal with
  | |- context [load_first h ?l (_load_env_file h) ?q] =>
      destruct (load_first_run h l (_load_env_file h) q) as (env1 & ->);
      [apply _load_env_file_run|]
  end.
  unfold bind at 1. unfold firebase_paths at 1, bind at 1.
  unfold expanduser at 1, ret at 1. cbv beta iota.
  lazymatch goal with
  | |- context [load_first h ?l (_load_firebase_config h) ?q] =>
      destruct (load_first_run h l (_load_firebase_config h) q) as (env2 & ->);
      [apply _load_firebase_config_run|]
  end.
  by exists env2.
Qed.

Lemma load_phases h env_file config_file p :
  load h env_file config_file p
  = (load_files h env_file config_file ;;;
     _build_config ;;; set_loaded true ;;; get_self) p.
Proof.
  unfold load, load_files, bind.
  destruct (env_paths h env_file p) as [[paths|e] p1]; [|done].
  destruct (load_first h paths (_load_env_file h) p1) as [[[]|e] p2]; [|done].
  destruct (firebase_paths h config_file p2) as [[paths'|e] p3]; [|done].
  by destruct (load_first h paths' (_load_firebase_config h) p3) as [[[]|e] p4].
Qed.

(** [load] is the assembly run in the environment the files leave; the
    instance it returns is the state it leaves, marked as loaded. *)
Lemma load_run h env_file config_file p :
  exists env',
    load_files h env_file config_file p = (Return tt, with_environ env' p) /\
    load h env_file config_file p =
    match _build_config (with_environ env' p) with
    | (Return _, p') =>
        (Return {| _config := cfg p'; _loaded := true |},
         {| environ := environ p';
            self := {| _config := cfg p'; _loaded := true |} |})
    | (Raise e, p') => (Raise e, p')
    end.
Proof.
  destruct (load_files_run h env_file config_file p) as (env' & Hf).
  exists env'. split; [done|]. rewrite load_phases. unfold bind at 1.
  rewrite Hf. unfold bind at 1.
  by destruct (_build_config (with_environ env' p)) as [[[]|e] p'].
Qed.

End whole.

(* ===================================================================== *)
(** ** The resolved configuration *)
(* ===================================================================== *)

Section resolved.

Context `{JsonLib}.
Implicit Types (p : Proc) (h : Host) (env : gmap string string).

Local Arguments fields_from : simpl never.
Local Arguments from_env_mapping : simpl never.

Lemma dom_cfg_anthropic env (c : gmap string pyvalue) :
  dom (cfg_anthropic env c) ⊆ {[ "ANTHROPIC_API_KEY" ]} ∪ dom c.
Proof.
  unfold cfg_anthropic. destruct (getenv_bool _); [|set_solver].
  rewrite dom_insert_L. set_solver.
Qed.

Lemma dom_cfg_admin env (c : gmap string pyvalue) :
  dom (cfg_admin env c) ⊆ {[ "admin" ]} ∪ dom c.
Proof.
  unfold cfg_admin. cbv zeta. destruct (bool_decide _); [set_solver|].
  rewrite dom_insert_L. set_solver.
Qed.

Lemma section_names_elem :
  "ANTHROPIC_API_KEY" ∈ section_names /\ "firebase" ∈ section_names /\
  "admin" ∈ section_names /\ "aws" ∈ section_names /\ "app" ∈ section_names.
Proof. unfold section_names. split_and!; set_solver. Qed.

Lemma _build_config_dom p :
  dom (cfg (_build_config p).2) ⊆ section_names ∪ dom (cfg p).
Proof.
  destruct (_build_config_cases p) as (c2 & Hc2 & Hrun). cbv zeta in Hrun.
  pose proof (dom_cfg_anthropic (environ p) (cfg p)) as Ha.
  pose proof (dom_cfg_admin (environ p) c2) as Hb.
  destruct section_names_elem as (K1 & K2 & K3 & K4 & K5).
  generalize dependent section_names. intros names K1 K2 K3 K4 K5.
  assert (dom c2 ⊆ names ∪ dom (cfg p)) as Hd.
  { destruct Hc2 as [->|(v & _ & -> & _)]; [|rewrite dom_insert_L];
      clear Hrun Hb; set_solver. }
  clear Hc2.
  destruct Hrun as [(e & _ & ->)|[[_ ->]|(port & _ & ->)]];
    cbn [snd]; rewrite cfg_with_config, ?dom_insert_L;
    generalize dependent (dom (cfg_admin (environ p) c2));
    generalize dependent (dom (cfg_anthropic (environ p) (cfg p)));
    generalize dependent (dom c2); generalize dependent (dom (cfg p));
    clear -K1 K2 K3 K4 K5; set_solver.
Qed.

(** C10: on a freshly constructed instance, whatever the environment and the
    files and whether or not [load] returns, every key of the mapping is one
    of the five section names. *)
Theorem load_keys_in_sections h (env_file config_file : option string) env :
  dom (cfg (load h env_file config_file (fresh env)).2) ⊆ section_names.
Proof.
  destruct (load_run h env_file config_file (fresh env)) as (env' & _ & ->).
  pose proof (_build_config_dom (with_environ env' (fresh env))) as Hd.
  destruct (_build_config (with_environ env' (fresh env))) as [[[]|e] p'];
    simpl in *; unfold cfg in *; simpl in *; set_solver.
Qed.

Lemma cfg_anthropic_lookup env (c : gmap string pyvalue) key :
  cfg_anthropic env c !! key
  = if decide (key = "ANTHROPIC_API_KEY")
    then (if getenv_bool (env !! "ANTHROPIC_API_KEY")
          then Some (of_getenv (env !! "ANTHROPIC_API_KEY")) else c !! key)
    else c !! key.
Proof.
  unfold cfg_anthropic. destruct (getenv_bool _); case_decide; subst;
    by rewrite ?lookup_insert_eq, ?lookup_insert_ne.
Qed.

Lemma cfg_admin_lookup env (c : gmap string pyvalue) key :
  cfg_admin env c !! key
  = if decide (key = "admin")
    then (let d := fields_from env admin_env_mapping ∅ in
          if bool_decide (d = ∅) then c !! key else Some (PyDict d))
    else c !! key.
Proof.
  unfold cfg_admin. cbv zeta. destruct (bool_decide _); case_decide; subst;
    by rewrite ?lookup_insert_eq, ?lookup_insert_ne.
Qed.

(** The mapping a returning [load] leaves on a fresh instance, section by
    section. *)
Lemma load_fresh_return h (env_file config_file : option string) env s p' :
  load h env_file config_file (fresh env) = (Return s, p') ->
  s = self p' /\ _loaded s = true /\
  exists port fb,
    PyStr.int (port_text (environ p')) = Some port /\
    (fb = None \/
     exists v, fb = Some v /\ py_bool v = true /\
       (env_set (environ p') "FIREBASE_CONFIG_JSON" \/
        exists kv, kv ∈ firebase_env_mapping /\ env_set (environ p') kv.2)) /\
    forall key,
      _config s !! key =
      if decide (key = "app") then Some (app_section (environ p') port)
      else if decide (key = "aws") then Some (aws_section (environ p'))
      else if decide (key = "admin") then
        (let d := fields_from (environ p') admin_env_mapping ∅ in
         if bool_decide (d = ∅) then None else Some (PyDict d))
      else if decide (key = "firebase") then fb
      else if decide (key = "ANTHROPIC_API_KEY") then
        (if getenv_bool (environ p' !! "ANTHROPIC_API_KEY")
         then Some (of_getenv (environ p' !! "ANTHROPIC_API_KEY")) else None)
      else None.
Proof.
  destruct (load_run h env_file config_file (fresh env)) as (env' & _ & ->).
  destruct (_build_config_cases (with_environ env' (fresh env)))
    as (c2 & Hc2 & Hrun). cbv zeta in Hrun. simpl in Hc2, Hrun.
  destruct Hrun as [(e & _ & ->)|[[_ ->]|(port & Hport & ->)]]; [done..|].
  simpl. intros [= <- <-]. simpl. split; [done|]. split; [done|].
  exists port, (c2 !! "firebase"). split; [done|]. split.
  - destruct Hc2 as [->|(v & Hv & -> & Hset)].
    + left. rewrite cfg_anthropic_lookup. by case_decide.
    + right. exists v. by rewrite lookup_insert_eq.
  - intros key. unfold cfg. simpl.
    destruct (decide (key = "app")) as [->|?]; [by rewrite lookup_insert_eq|].
    rewrite lookup_insert_ne by done.
    destruct (decide (key = "aws")) as [->|?]; [by rewrite lookup_insert_eq|].
    rewrite lookup_insert_ne by done.
    rewrite cfg_admin_lookup.
    destruct (decide (key = "admin")) as [->|?].
    { cbv zeta. destruct (bool_decide _); [|done].
      destruct Hc2 as [->|(v & Hv & -> & Hset)];
        rewrite ?lookup_insert_ne by done;
        rewrite cfg_anthropic_lookup; by case_decide. }
    destruct (decide (key = "firebase")) as [->|?]; [done|].
    destruct Hc2 as [->|(v & Hv & -> & Hset)];
      rewrite ?lookup_insert_ne by done;
      rewrite cfg_anthropic_lookup; case_decide; try done.
Qed.

(** A returning [load] writes the [aws] and [app] sections from the
    environment the files left, whatever the instance held before. *)
Lemma load_return_aws_app h (env_file config_file : option string) p s p' :
  load h env_file config_file p = (Return s, p') ->
  exists port,
    PyStr.int (port_text (environ p')) = Some port /\
    _config s !! "app" = Some (app_section (environ p') port) /\
    _config s !! "aws" = Some (aws_section (environ p')).
Proof.
  destruct (load_run h env_file config_file p) as (env' & _ & ->).
  destruct (_build_config_cases (with_environ env' p)) as (c2 & _ & Hrun).
  cbv zeta in Hrun. simpl in Hrun.
  destruct Hrun as [(e & _ & ->)|[[_ ->]|(port & Hport & ->)]]; [done..|].
  simpl. intros [= <- <-]. simpl. exists port. split; [done|].
  rewrite !cfg_with_config. split; [apply lookup_insert_eq|].
  rewrite lookup_insert_ne by done. apply lookup_insert_eq.
Qed.

(** C8: in the configuration [load] returns, the [debug] field of the [app]
    section is [True] exactly when [APP_DEBUG] is set to one of the sixteen
    spellings of [true]; any other value, and no value, give [False]. *)
Theorem load_debug_flag h (env_file config_file : option string) p s p' :
  load h env_file config_file p = (Return s, p') ->
  exists app b,
    _config s !! "app" = Some (PyDict app) /\
    app !! "debug" = Some (PyBool b) /\
    (b = true <->
     exists v, environ p' !! "APP_DEBUG" = Some v /\ true_ignoring_case v).
Proof.
  intros (port & _ & Happ & _)%load_return_aws_app.
  unfold app_section in Happ. eexists _, _. split; [exact Happ|].
  split; [rewrite !lookup_insert_ne by done; apply lookup_singleton_eq|].
  rewrite String.eqb_eq, lower_is_true.
  destruct (environ p' !! "APP_DEBUG") as [v|]; simpl.
  - split; [eauto|]. by intros (? & [= <-] & ?).
  - split; [|by intros (? & ? & ?)].
    intros (a & b & c & d & E & _). discriminate.
Qed.

(** The mapping a returning [load] leaves on any instance, section by
    section: [aws] and [app] are written, each other section is written
    when the environment gives it and is otherwise what the instance held
    before. *)
Lemma load_return_lookup h (env_file config_file : option string) p s p' :
  load h env_file config_file p = (Return s, p') ->
  exists port fb,
    PyStr.int (port_text (environ p')) = Some port /\
    (fb = None \/
     exists v, fb = Some v /\ py_bool v = true /\
       (env_set (environ p') "FIREBASE_CONFIG_JSON" \/
        exists kv, kv ∈ firebase_env_mapping /\ env_set (environ p') kv.2)) /\
    forall key,
      _config s !! key =
      if decide (key = "app") then Some (app_section (environ p') port)
      else if decide (key = "aws") then Some (aws_section (environ p'))
      else if decide (key = "admin") then
        (let d := fields_from (environ p') admin_env_mapping ∅ in
         if bool_decide (d = ∅) then cfg p !! key else Some (PyDict d))
      else if decide (key = "firebase") then
        (match fb with Some v => Some v | None => cfg p !! key end)
      else if decide (key = "ANTHROPIC_API_KEY") then
        (if getenv_bool (environ p' !! "ANTHROPIC_API_KEY")
         then Some (of_getenv (environ p' !! "ANTHROPIC_API_KEY"))
         else cfg p !! key)
      else cfg p !! key.
Proof.
  destruct (load_run h env_file config_file p) as (env' & _ & ->).
  destruct (_build_config_cases (with_environ env' p))
    as (c2 & Hc2 & Hrun). cbv zeta in Hrun. simpl in Hc2, Hrun.
  destruct Hrun as [(e & _ & ->)|[[_ ->]|(port & Hport & ->)]]; [done..|].
  simpl. intros [= <- <-]. simpl. exists port.
  change (cfg (with_environ env' p)) with (cfg p) in *.
  assert (forall key fb,
            key <> "app" -> key <> "aws" ->
            c2 !! key
            = (if decide (key = "firebase")
               then match fb with Some v => Some v | None => cfg p !! key end
               else cfg_anthropic env' (cfg p) !! key) ->
            cfg_admin env' c2 !! key =
            if decide (key = "admin") then
              (let d := fields_from env' admin_env_mapping ∅ in
               if bool_decide (d = ∅) then cfg p !! key else Some (PyDict d))
            else if decide (key = "firebase") then
              (match fb with Some v => Some v | None => cfg p !! key end)
            else if decide (key = "ANTHROPIC_API_KEY") then
              (if getenv_bool (env' !! "ANTHROPIC_API_KEY")
               then Some (of_getenv (env' !! "ANTHROPIC_API_KEY"))
               else cfg p !! key)
            else cfg p !! key) as Hrest.
  { intros key fb _ _ Hc. rewrite cfg_admin_lookup.
    destruct (decide (key = "admin")) as [->|?].
    - cbv zeta. destruct (bool_decide _); [|done]. rewrite Hc.
      rewrite decide_False by done. rewrite cfg_anthropic_lookup.
      by rewrite decide_False.
    - rewrite Hc. destruct (decide (key = "firebase")) as [->|?]; [done|].
      apply cfg_anthropic_lookup. }
  assert (forall key fb,
            c2 !! key
            = (if decide (key = "firebase")
               then match fb with Some v => Some v | None => cfg p !! key end
               else cfg_anthropic env' (cfg p) !! key) ->
            (<["app" := app_section env' port]>
               (<["aws" := aws_section env']> (cfg_admin env' c2))) !! key =
            if decide (key = "app") then Some (app_section env' port)
            else if decide (key = "aws") then Some (aws_section env')
            else if decide (key = "admin") then
              (let d := fields_from env' admin_env_mapping ∅ in
               if bool_decide (d = ∅) then cfg p !! key else Some (PyDict d))
            else if decide (key = "firebase") then
              (match fb with Some v => Some v | None => cfg p !! key end)
            else if decide (key = "ANTHROPIC_API_KEY") then
              (if getenv_bool (env' !! "ANTHROPIC_API_KEY")
               then Some (of_getenv (env' !! "ANTHROPIC_API_KEY"))
               else cfg p !! key)
            else cfg p !! key) as Hall.
  { intros key fb Hc.
    destruct (decide (key = "app")) as [->|?]; [by rewrite lookup_insert_eq|].
    rewrite lookup_insert_ne by done.
    destruct (decide (key = "aws")) as [->|?]; [by rewrite lookup_insert_eq|].
    rewrite lookup_insert_ne by done. by apply Hrest. }
  destruct Hc2 as [->|(v & Hv & -> & Hset)].
  - exists None. split; [done|]. split; [by left|]. intros key.
    rewrite cfg_with_config. apply (Hall key None). destruct (decide (key = "firebase")) as [->|?]; [|done].
    rewrite cfg_anthropic_lookup. by rewrite decide_False.
  - exists (Some v). split; [done|]. split; [right; by exists v|]. intros key.
    rewrite cfg_with_config. apply (Hall key (Some v)). destruct (decide (key = "firebase")) as [->|?].
    + apply lookup_insert_eq.
    + by rewrite lookup_insert_ne.
Qed.

(** C5 (amended): whatever the environment, the files and the instance,
    the configuration a returning [load] leaves has the [aws] and [app]
    sections, with the defaults for the variables that are unset
    ([us-east-1] for the region); each of [ANTHROPIC_API_KEY] and [admin]
    is there exactly when one of its variables is set or the instance held
    it before the call, and [firebase] only when one of its variables is
    set or the instance held it before; a key that is no section name is
    one the instance held before.  On an instance that held nothing, as a
    fresh one, the three sections depend on the variables alone and there
    is no other key. *)
Theorem load_sections_present h (env_file config_file : option string) p s p' :
  load h env_file config_file p = (Return s, p') ->
  let env' := environ p' in
  (exists aws,
     _config s !! "aws" = Some (PyDict aws) /\
     aws !! "region"
     = Some (PyStr (default "us-east-1" (env' !! "AWS_DEFAULT_REGION"))) /\
     (env' !! "AWS_DEFAULT_REGION" = None ->
      aws !! "region" = Some (PyStr "us-east-1"))) /\
  (exists app port,
     _config s !! "app" = Some (PyDict app) /\
     PyStr.int (default "8501" (env' !! "APP_PORT")) = Some port /\
     app !! "mode" = Some (PyStr (default "production" (env' !! "APP_MODE"))) /\
     app !! "port" = Some (PyInt port) /\
     app !! "host" = Some (PyStr (default "0.0.0.0" (env' !! "APP_HOST"))) /\
     exists b, app !! "debug" = Some (PyBool b)) /\
  (is_Some (_config s !! "ANTHROPIC_API_KEY")
   <-> env_set env' "ANTHROPIC_API_KEY"
       \/ is_Some (cfg p !! "ANTHROPIC_API_KEY")) /\
  (is_Some (_config s !! "admin")
   <-> (exists kv, kv ∈ admin_env_mapping /\ env_set env' kv.2)
       \/ is_Some (cfg p !! "admin")) /\
  (is_Some (_config s !! "firebase") ->
   env_set env' "FIREBASE_CONFIG_JSON" \/
   (exists kv, kv ∈ firebase_env_mapping /\ env_set env' kv.2) \/
   is_Some (cfg p !! "firebase")) /\
  (forall key, is_Some (_config s !! key) ->
               key ∈ section_names \/ is_Some (cfg p !! key)) /\
  (cfg p = ∅ ->
   (is_Some (_config s !! "ANTHROPIC_API_KEY")
    <-> env_set env' "ANTHROPIC_API_KEY") /\
   (is_Some (_config s !! "admin")
    <-> exists kv, kv ∈ admin_env_mapping /\ env_set env' kv.2) /\
   (is_Some (_config s !! "firebase") ->
    env_set env' "FIREBASE_CONFIG_JSON" \/
    exists kv, kv ∈ firebase_env_mapping /\ env_set env' kv.2) /\
   (forall key, is_Some (_config s !! key) -> key ∈ section_names)).
Proof.
  intros Hload env'.
  destruct (load_return_lookup _ _ _ _ _ _ Hload)
    as (port & fb & Hport & Hfb & Hcfg). fold env' in Hport, Hfb, Hcfg.
  assert (is_Some (_config s !! "ANTHROPIC_API_KEY")
          <-> env_set env' "ANTHROPIC_API_KEY"
              \/ is_Some (cfg p !! "ANTHROPIC_API_KEY")) as Hk.
  { rewrite Hcfg. simpl. unfold env_set. rewrite <-getenv_bool_true.
    destruct (getenv_bool (env' !! "ANTHROPIC_API_KEY")).
    - split; [by left|by eexists].
    - split; [by right|]. by intros [?|?]. }
  assert (is_Some (_config s !! "admin")
          <-> (exists kv, kv ∈ admin_env_mapping /\ env_set env' kv.2)
              \/ is_Some (cfg p !! "admin")) as Ha.
  { rewrite Hcfg. simpl.
    destruct (bool_decide_reflect (fields_from env' admin_env_mapping ∅ = ∅))
      as [E|E].
    - split; [by right|]. intros [(kv & Hkv & Hset)|?]; [|done]. exfalso.
      apply getenv_bool_true in Hset.
      rewrite (proj1 (fields_from_empty _ _) E kv Hkv) in Hset. done.
    - split; [|by eexists]. intros _. left.
      by apply fields_from_nonempty_inv. }
  assert (is_Some (_config s !! "firebase") ->
          env_set env' "FIREBASE_CONFIG_JSON" \/
          (exists kv, kv ∈ firebase_env_mapping /\ env_set env' kv.2) \/
          is_Some (cfg p !! "firebase")) as Hf.
  { rewrite Hcfg. simpl.
    destruct Hfb as [->|(v & -> & _ & [Hset|Hset])]; intros Hs; auto. }
  assert (forall key, is_Some (_config s !! key) ->
                      key ∈ section_names \/ is_Some (cfg p !! key)) as Hn.
  { intros key. rewrite Hcfg.
    destruct section_names_elem as (K1 & K2 & K3 & K4 & K5).
    repeat case_decide; subst; auto. }
  split_and!; [| |exact Hk|exact Ha|exact Hf|exact Hn|].
  - rewrite Hcfg. simpl. unfold aws_section. cbv zeta. eexists. split; [done|].
    assert (forall d : gmap string pyvalue, d !! "region"
              = Some (PyStr (default "us-east-1" (env' !! "AWS_DEFAULT_REGION")))
            -> (if getenv_bool (env' !! "AWS_ACCESS_KEY_ID")
                then <["secret_access_key" :=
                         PyStr (default "" (env' !! "AWS_SECRET_ACCESS_KEY"))]>
                       (<["access_key_id" := of_getenv (env' !! "AWS_ACCESS_KEY_ID")]> d)
                else d) !! "region"
               = Some (PyStr (default "us-east-1" (env' !! "AWS_DEFAULT_REGION"))))
      as Hreg.
    { intros d Hd. clear Hcfg.
      destruct (getenv_bool (env' !! "AWS_ACCESS_KEY_ID")); [|done].
      by rewrite !lookup_insert_ne. }
    split.
    + apply Hreg, lookup_singleton_eq.
    + intros Hnone. rewrite Hreg by apply lookup_singleton_eq. by rewrite Hnone.
  - rewrite Hcfg. simpl. unfold app_section. eexists _, port.
    split; [done|]. split; [exact Hport|].
    split_and!.
    + apply lookup_insert_eq.
    + rewrite lookup_insert_ne by done. apply lookup_insert_eq.
    + rewrite !lookup_insert_ne by done. apply lookup_insert_eq.
    + eexists. rewrite !lookup_insert_ne by done. apply lookup_singleton_eq.
  - intros Hempty.
    assert (forall key, ~ is_Some (cfg p !! key)) as Hno.
    { intros key. rewrite Hempty, lookup_empty. by intros [? ?]. }
    split_and!.
    + rewrite Hk. split; [|by left].
      intros [?|Hs]; [done|by destruct (Hno _ Hs)].
    + rewrite Ha. split; [|by left].
      intros [?|Hs]; [done|by destruct (Hno _ Hs)].
    + intros Hs. destruct (Hf Hs) as [?|[?|Hs']]; [by left|by right|].
      by destruct (Hno _ Hs').
    + intros key Hs. destruct (Hn key Hs) as [?|Hs']; [done|].
      by destruct (Hno _ Hs').
Qed.

(** [load] cannot return when the port text is not an integer literal. *)
Lemma load_raises_without_port h (env_file config_file : option string) p r p' :
  load h env_file config_file p = (r, p') ->
  PyStr.int (port_text (environ p')) = None ->
  exists e, r = Raise e.
Proof.
  destruct (load_run h env_file config_file p) as (env' & _ & ->).
  destruct (_build_config_cases (with_environ env' p)) as (c2 & _ & Hrun).
  cbv zeta in Hrun. simpl in Hrun.
  destruct Hrun as [(e & _ & ->)|[[Hport ->]|(port & Hport & ->)]].
  - intros [= <- <-] _. by eexists.
  - intros [= <- <-] _. by eexists.
  - intros [= <- <-]. simpl. congruence.
Qed.

(** C1 fails on the code: with [APP_PORT=abc], no file and any JSON library,
    [int] raises [ValueError] inside [_build_config]; [load] propagates it,
    and the instance is left without an [app] section and not loaded. *)
Theorem load_raises_on_bad_port :
  (load no_files None None (fresh env_bad_port)).1 = Raise ValueError /\
  cfg (load no_files None None (fresh env_bad_port)).2 !! "app" = None /\
  _loaded (self (load no_files None None (fresh env_bad_port)).2) = false.
Proof. split_and!; by vm_compute. Qed.

(** The [firebase] entry of the mapping is decided by the second section
    alone. *)
Lemma _build_config_firebase p :
  cfg (_build_config p).2 !! "firebase"
  = cfg (build_firebase
           (with_config (cfg_anthropic (environ p) (cfg p)) p)).2 !! "firebase".
Proof.
  rewrite _build_config_run. cbv zeta.
  destruct (build_firebase _) as [[[]|e] p2]; [|done]. simpl.
  destruct (PyStr.int _); simpl; rewrite cfg_with_config;
    rewrite ?lookup_insert_ne by done; rewrite cfg_admin_lookup; by case_decide.
Qed.

Lemma firebase_keys_NoDup : NoDup firebase_env_mapping.*1.
Proof. by apply (bool_decide_unpack _). Qed.

(** C3 (amended): when [FIREBASE_CONFIG_JSON] holds a JSON text whose value
    is truthy (not an empty object, and not [null], [false], zero, an empty
    string or an empty list), the [firebase] section is that value, in this
    and in every environment with the same text, whatever the individual
    variables hold. *)
Theorem firebase_json_precedence p s v :
  environ p !! "FIREBASE_CONFIG_JSON" = Some s ->
  json_loads s = Return v ->
  py_bool v = true ->
  cfg (_build_config p).2 !! "firebase" = Some v /\
  forall q, environ q !! "FIREBASE_CONFIG_JSON" = Some s ->
            cfg (_build_config q).2 !! "firebase" = Some v.
Proof.
  intros Hs Hv Hb.
  assert (forall q, environ q !! "FIREBASE_CONFIG_JSON" = Some s ->
                    cfg (_build_config q).2 !! "firebase" = Some v) as Hall.
  { intros q Hq. rewrite _build_config_firebase.
    rewrite (build_firebase_json _ s v) by done. simpl.
    rewrite cfg_with_config. apply lookup_insert_eq. }
  split; [by apply Hall|exact Hall].
Qed.


(** C7 fails on the code: [get] can fail.  With [APP_PORT=abc] and no file,
    the implicit [load] of the first access raises [ValueError] out of
    [int], as in C1, and [get] raises it for every key and default, as
    [__getitem__] does; the instance stays unloaded, so the next [get]
    fails in the same way. *)
Theorem get_raises_on_bad_port (key : string) (dflt : pyvalue) :
  get no_files key dflt (fresh env_bad_port)
  = (Raise ValueError, (load no_files None None (fresh env_bad_port)).2) /\
  __getitem__ no_files key (fresh env_bad_port)
  = (Raise ValueError, (load no_files None None (fresh env_bad_port)).2) /\
  _loaded (self (get no_files key dflt (fresh env_bad_port)).2) = false /\
  (get no_files key dflt (get no_files key dflt (fresh env_bad_port)).2).1
  = Raise ValueError.
Proof. split_and!; by vm_compute. Qed.












End resolved.

(* ===================================================================== *)
(** ** Concrete runs, on the reference [json] library *)
(* ===================================================================== *)

(** C3, as stated, fails: [{}] is a JSON document, it is set together with
    [FIREBASE_PROJECT_ID], and the [firebase] section is built from the
    individual variable, not equal to the decoded document. *)
Lemma firebase_json_empty_counterexample :
  json_loads "{}" = Return (PyDict ∅) /\
  env_empty_json !! "FIREBASE_CONFIG_JSON" = Some "{}" /\
  env_empty_json !! "FIREBASE_PROJECT_ID" = Some "p" /\
  cfg (_build_config (fresh env_empty_json)).2 !! "firebase"
  = Some (PyDict {[ "project_id" := PyStr "p" ]}) /\
  cfg (_build_config (fresh env_empty_json)).2 !! "firebase"
  <> Some (PyDict ∅).
Proof. split_and!; [by vm_compute..|]. vm_compute. discriminate. Qed.

Lemma firebase_json_precedence_witness :
  cfg (_build_config (fresh env_json_and_vars)).2 !! "firebase"
  = Some (PyDict {[ "project_id" := PyStr "j" ]}).
Proof.
  refine (proj1 (firebase_json_precedence (fresh env_json_and_vars)
                   json_sample (PyDict {[ "project_id" := PyStr "j" ]}) _ _ _)).
  - vm_compute. reflexivity.
  - vm_compute. reflexivity.
  - vm_compute. reflexivity.
Defined.



Lemma load_sections_present_witness :
  exists aws,
    _config (self sample_run.2) !! "aws" = Some (PyDict aws) /\
    aws !! "region" = Some (PyStr "us-east-1").
Proof.
  destruct (load_sections_present no_files None None (fresh env_sample)
              (self sample_run.2) sample_run.2) as [(aws & H1 & _ & H3) _].
  - vm_compute. reflexivity.
  - exists aws. split; [exact H1|]. apply H3. vm_compute. reflexivity.
Defined.

(** C5, as stated, fails.  A section of an earlier [load] outlives its
    variables: after [load] with [ADMIN_EMAIL] set, the variable is removed
    and [load] is called again; it returns, and the [admin] section is
    still there with no variable of the section set.  And with
    [APP_PORT=abc] the [app] section is not there at all: that is the
    failure of C1, where [load] does not return. *)
Lemma load_sections_counterexample :
  (exists s p',
      reload_after_unset = (Return s, p') /\
      is_Some (_config s !! "admin") /\
      environ p' !! "ADMIN_EMAIL" = None /\
      environ p' !! "ADMIN_PASSWORD" = None /\
      environ p' !! "ADMIN_KEY" = None) /\
  (load no_files None None (fresh env_bad_port)).1 = Raise ValueError /\
  cfg (load no_files None None (fresh env_bad_port)).2 !! "app" = None.
Proof.
  split_and!; [|by vm_compute..].
  exists (self reload_after_unset.2), reload_after_unset.2.
  split_and!; [by vm_compute| |by vm_compute..].
  vm_compute. by eexists.
Qed.

Lemma load_debug_flag_witness :
  exists app b,
    _config (self sample_run.2) !! "app" = Some (PyDict app) /\
    app !! "debug" = Some (PyBool b) /\
    (b = true <->
     exists v, environ sample_run.2 !! "APP_DEBUG" = Some v /\
               true_ignoring_case v).
Proof.
  apply (load_debug_flag no_files None None (fresh env_sample)).
  vm_compute. reflexivity.
Defined.


(** A second way for [load] to fail: a JSON text that decodes to a falsy
    value that is not an object sends the assembly to the individual
    variables, and the item assignment on that value raises [TypeError]. *)
Lemma load_raises_on_scalar_json :
  json_loads "0" = Return (PyInt 0) /\
  (load no_files None None (fresh env_scalar_json)).1 = Raise TypeError.
Proof. split; by vm_compute. Qed.

(* ===================================================================== *)
(** ** More on the files: the [.env] parser and the Firebase document *)
(* ===================================================================== *)

Lemma env_line_declared line :
  env_line line
  = match declared line with
    | Some (k, v) => os_environ_setitem k v
    | None => ret tt
    end.
Proof.
  unfold env_line, declared. cbv zeta.
  destruct (_ || _); [done|].
  destruct (PyStr.contains "=" (PyStr.strip line)) eqn:Hc.
  - destruct (cut_contains _ _ Hc) as [[k v] Hkv].
    unfold PyStr.split1. by rewrite Hkv.
  - by rewrite cut_None.
Qed.

Lemma for_each_app {A} (l1 l2 : list A) (body : A -> M unit) p :
  for_each (l1 ++ l2) body p = (for_each l1 body ;;; for_each l2 body) p.
Proof.
  revert p. induction l1 as [|x l1 IH]; intros p; [done|].
  simpl. unfold bind. destruct (body x p) as [[[]|e] p1]; [|done]. apply IH.
Qed.

Lemma with_environ_id p : with_environ (environ p) p = p.
Proof. by destruct p. Qed.

(** A variable that no line declares keeps its value through the loop,
    wherever the loop stops. *)
Lemma for_each_env_line_frame lines p k :
  (forall line v, line ∈ lines -> declared line <> Some (k, v)) ->
  exists r env',
    for_each lines env_line p = (r, with_environ env' p) /\
    env' !! k = environ p !! k.
Proof.
  revert p. induction lines as [|line lines IH]; intros p Hk.
  - exists (Return tt), (environ p). by rewrite with_environ_id.
  - simpl. unfold bind. rewrite env_line_declared.
    destruct (declared line) as [[k' v']|] eqn:Hd.
    + unfold os_environ_setitem. destruct (putenv_ok k' v').
      * fold (with_environ (<[k' := v']> (environ p)) p).
        destruct (IH (with_environ (<[k' := v']> (environ p)) p))
          as (r & env' & -> & Hl).
        { intros ln v Hln. apply Hk. by right. }
        exists r, env'. split; [done|]. rewrite Hl. simpl.
        apply lookup_insert_ne. intros ->. by apply (Hk line v'); [left|].
      * eexists _, (environ p). by rewrite with_environ_id.
    + unfold ret. cbv beta iota.
      destruct (IH p) as (r & env' & -> & Hl).
      { intros ln v Hln. apply Hk. by right. }
      by exists r, env'.
Qed.

(** While every declaration is accepted the loop does not stop. *)
Lemma for_each_env_line_accepted lines p :
  (forall line kv, line ∈ lines -> declared line = Some kv ->
                   putenv_ok kv.1 kv.2 = true) ->
  exists env', for_each lines env_line p = (Return tt, with_environ env' p).
Proof.
  revert p. induction lines as [|line lines IH]; intros p Hok.
  - exists (environ p). by rewrite with_environ_id.
  - simpl. unfold bind. rewrite env_line_declared.
    destruct (declared line) as [[k v]|] eqn:Hd.
    + unfold os_environ_setitem.
      assert (putenv_ok k v = true) as -> by (by apply (Hok line (k, v)); [left|]).
      fold (with_environ (<[k := v]> (environ p)) p).
      destruct (IH (with_environ (<[k := v]> (environ p)) p)) as (env' & ->).
      { intros ln kv Hln. apply Hok. by right. }
      by exists env'.
    + unfold ret. cbv beta iota.
      destruct (IH p) as (env' & ->).
      { intros ln kv Hln. apply Hok. by right. }
      by exists env'.
Qed.

(** X1: [_load_env_file] never raises and touches nothing but [os.environ];
    a file that is missing or cannot be opened changes nothing, and a
    variable that no line of the file declares keeps its value. *)
Theorem _load_env_file_frame (h : Host) (path : string) (p : Proc) :
  exists env',
    _load_env_file h path p = (Return tt, with_environ env' p) /\
    match fs h path with
    | Text text =>
        forall k,
          (forall line v, line ∈ file_lines text -> declared line <> Some (k, v)) ->
          env' !! k = environ p !! k
    | _ => env' = environ p
    end.
Proof.
  unfold _load_env_file, try_except, bind, open_read.
  destruct (fs h path) as [| |text] eqn:Hfs.
  - exists (environ p). by rewrite with_environ_id.
  - exists (environ p). by rewrite with_environ_id.
  - simpl. fold (file_lines text).
    destruct (for_each_env_line_run (file_lines text) p) as (r & env' & Hrun).
    exists env'. rewrite Hrun. split; [by destruct r as [[]|e]|].
    intros k Hk.
    destruct (for_each_env_line_frame (file_lines text) p k Hk)
      as (r' & env'' & Hrun' & Hl).
    rewrite Hrun in Hrun'. injection Hrun' as _ E.
    by rewrite E.
Qed.

(** X2: in a [.env] file the last declaration of a variable wins: when the
    lines up to it are accepted by [os.environ], the variable holds the
    value of its last declaration after [_load_env_file], whatever it held
    before and whatever the later lines do. *)
Theorem _load_env_file_last_wins (h : Host) (path text : string) (p : Proc)
    (l1 l2 : list string) (line k v : string) :
  fs h path = Text text ->
  file_lines text = (l1 ++ line :: l2)%list ->
  (forall ln kv, ln ∈ (l1 ++ [line])%list -> declared ln = Some kv ->
                 putenv_ok kv.1 kv.2 = true) ->
  declared line = Some (k, v) ->
  (forall ln v', ln ∈ l2 -> declared ln <> Some (k, v')) ->
  environ (_load_env_file h path p).2 !! k = Some v.
Proof.
  intros Hfs Hlines Hok Hd Hl2.
  unfold _load_env_file, try_except, bind, open_read. rewrite Hfs. simpl.
  fold (file_lines text). rewrite Hlines.
  replace (l1 ++ line :: l2)%list with ((l1 ++ [line]) ++ l2)%list
    by (by rewrite <-(assoc_L (++)%list)).
  rewrite for_each_app. unfold bind.
  destruct (for_each_env_line_accepted (l1 ++ [line])%list p Hok) as (env1 & Hrun1).
  rewrite Hrun1.
  assert (env1 !! k = Some v) as Hk.
  { revert Hrun1. rewrite for_each_app. unfold bind.
    destruct (for_each_env_line_accepted l1 p) as (env0 & ->).
    { intros ln kv Hln. apply Hok. apply elem_of_app. by left. }
    simpl. unfold bind. rewrite env_line_declared, Hd.
    unfold os_environ_setitem.
    assert (putenv_ok k v = true) as ->.
    { apply (Hok line (k, v)); [|done]. apply elem_of_app. right. left. }
    simpl. intros [= <-]. apply lookup_insert_eq. }
  destruct (for_each_env_line_frame l2 (with_environ env1 p) k Hl2)
    as (r & env2 & -> & Hl).
  simpl in Hl. destruct r as [[]|e]; simpl; congruence.
Qed.

Section firebase_file.

Context `{JsonLib}.

(** X3: [_load_firebase_config] never raises and touches nothing but
    [FIREBASE_CONFIG_JSON]: a document that decodes is written there,
    re-serialised, over whatever the variable held; a file that is missing,
    unreadable or not JSON leaves the process exactly as it was. *)
Theorem _load_firebase_config_effect (h : Host) (path : string) (p : Proc) :
  (_load_firebase_config h path p).1 = Return tt /\
  self (_load_firebase_config h path p).2 = self p /\
  (forall k, k <> "FIREBASE_CONFIG_JSON" ->
             environ (_load_firebase_config h path p).2 !! k = environ p !! k) /\
  (forall text v,
      fs h path = Text text ->
      json_loads (PyStr.universal_newlines text) = Return v ->
      putenv_ok "FIREBASE_CONFIG_JSON" (json_dumps v) = true ->
      environ (_load_firebase_config h path p).2 !! "FIREBASE_CONFIG_JSON"
      = Some (json_dumps v)) /\
  ((forall text, fs h path = Text text ->
                 exists e, json_loads (PyStr.universal_newlines text) = Raise e) ->
   (_load_firebase_config h path p).2 = p).
Proof.
  unfold _load_firebase_config, try_except, bind, open_read.
  destruct (fs h path) as [| |text] eqn:Hfs; simpl; [by split_and!..|].
  destruct (json_loads (PyStr.universal_newlines text)) as [v|e] eqn:Hl; simpl.
  - unfold os_environ_setitem.
    destruct (putenv_ok "FIREBASE_CONFIG_JSON" (json_dumps v)) eqn:Hok; simpl.
    + split_and!; [done|done| | |].
      * intros k Hk. by rewrite lookup_insert_ne.
      * intros text' v' [= <-]. rewrite Hl. intros [= <-] _.
        apply lookup_insert_eq.
      * intros Hbad. destruct (Hbad text eq_refl) as [e He]. congruence.
    + split_and!; [done|done|done| |done].
      intros text' v' [= <-]. rewrite Hl. intros [= <-]. congruence.
  - split_and!; [done|done|done| |done].
    intros text' v' [= <-]. by rewrite Hl.
Qed.

(** X4: the candidate Firebase paths are the explicit one,
    [firebase-config.json] in the current directory and three absolute
    ones, the home directory of the third of them expanded in the
    environment of the moment; only the first candidate that is given and
    exists is read, and without one nothing is read and nothing changes. *)
Theorem firebase_file_first_match (h : Host) (config_file : option string)
    (p : Proc) :
  let cands := firebase_candidates h config_file (environ p) in
  firebase_paths h config_file p = (Return cands, p) /\
  (forall i path,
      cands !! i = Some (Some path) -> usable h (Some path) = true ->
      (forall j o, (j < i)%nat -> cands !! j = Some o -> usable h o = false) ->
      load_first h cands (_load_firebase_config h) p
      = _load_firebase_config h path p) /\
  ((forall o, o ∈ cands -> usable h o = false) ->
   load_first h cands (_load_firebase_config h) p = (Return tt, p)).
Proof.
  intros cands. split_and!.
  - reflexivity.
  - intros i path Hi Hu Hlt. by rewrite (load_first_at h cands _ i path).
  - intros Hnone. by rewrite load_first_none.
Qed.

(** X5: an explicit path given as the empty string is the same as no
    explicit path, for both arguments of [load]. *)
Theorem load_empty_path_ignored (h : Host) (env_file config_file : option string)
    (p : Proc) :
  load h (Some "") config_file p = load h None config_file p /\
  load h env_file (Some "") p = load h env_file None p.
Proof.
  split.
  - unfold load. unfold bind at 1 6. unfold env_paths, bind, expanduser, ret.
    cbv beta iota. by rewrite !load_first_cons.
  - unfold load. unfold bind.
    destruct (env_paths h env_file p) as [[paths|e] p1]; [|done].
    destruct (load_first h paths (_load_env_file h) p1) as [[[]|e] p2]; [|done].
    unfold firebase_paths, bind, expanduser, ret. cbv beta iota.
    by rewrite !load_first_cons.
Qed.

End firebase_file.

(* ===================================================================== *)
(** ** Invariants of the process state *)
(* ===================================================================== *)

Lemma keeps_bind {A B} (I : Proc -> Prop) (m : M A) (k : A -> M B) :
  keeps I m -> (forall a, keeps I (k a)) -> keeps I (bind m k).
Proof.
  intros Hm Hk p Hp. unfold bind. specialize (Hm p Hp).
  destruct (m p) as [[a|e] p1]; [|done]. by apply Hk.
Qed.

Lemma keeps_try_except {A} (I : Proc -> Prop) (m : M A) (hd : exn -> M A) :
  keeps I m -> (forall e, keeps I (hd e)) -> keeps I (try_except m hd).
Proof.
  intros Hm Hh p Hp. unfold try_except. specialize (Hm p Hp).
  destruct (m p) as [[a|e] p1]; [done|]. by apply Hh.
Qed.

Lemma keeps_same {A} (I : Proc -> Prop) (m : M A) :
  (forall p, (m p).2 = p) -> keeps I m.
Proof. intros Hm p Hp. by rewrite Hm. Qed.

Lemma keeps_for_each {A} (I : Proc -> Prop) (l : list A) (body : A -> M unit) :
  (forall x, keeps I (body x)) -> keeps I (for_each l body).
Proof.
  intros Hb. induction l as [|x l IH]; [by apply keeps_same|].
  simpl. by apply keeps_bind.
Qed.

Lemma keeps_load_first (I : Proc -> Prop) h paths (loader : string -> M unit) :
  (forall path, keeps I (loader path)) -> keeps I (load_first h paths loader).
Proof.
  intros Hl. induction paths as [|o paths IH]; [by apply keeps_same|].
  intros p Hp. rewrite load_first_cons. destruct (usable h o); [by apply Hl|by apply IH].
Qed.

Lemma env_wf_insert env k v :
  env_wf env -> putenv_ok k v = true -> env_wf (<[k := v]> env).
Proof.
  intros Hwf Hok k' v'. rewrite lookup_insert. case_decide.
  - intros [= <-]. by subst.
  - apply Hwf.
Qed.

Lemma keeps_wf_setitem k v :
  keeps (fun p => env_wf (environ p)) (os_environ_setitem k v).
Proof.
  intros p Hp. unfold os_environ_setitem.
  destruct (putenv_ok k v) eqn:Hok; [|done]. simpl. by apply env_wf_insert.
Qed.

Lemma keeps_wf_open_read h path :
  keeps (fun p => env_wf (environ p)) (open_read h path).
Proof. apply keeps_same. intros p. unfold open_read. by destruct (fs h path). Qed.

Lemma keeps_wf_load_env_file h path :
  keeps (fun p => env_wf (environ p)) (_load_env_file h path).
Proof.
  apply keeps_try_except; [|intros e; by apply keeps_same].
  apply keeps_bind; [apply keeps_wf_open_read|]. intros text.
  apply keeps_for_each. intros line. rewrite env_line_declared.
  destruct (declared line) as [[k v]|]; [apply keeps_wf_setitem|by apply keeps_same].
Qed.

Section invariants.

Context `{JsonLib}.

Lemma keeps_wf_load_firebase_config h path :
  keeps (fun p => env_wf (environ p)) (_load_firebase_config h path).
Proof.
  apply keeps_try_except; [|intros e; by apply keeps_same].
  apply keeps_bind; [apply keeps_wf_open_read|]. intros text.
  destruct (json_loads text); [apply keeps_wf_setitem|by apply keeps_same].
Qed.

Lemma keeps_wf_load_files h env_file config_file :
  keeps (fun p => env_wf (environ p)) (load_files h env_file config_file).
Proof.
  unfold load_files.
  apply keeps_bind; [by apply keeps_same|]. intros paths.
  apply keeps_bind; [apply keeps_load_first, keeps_wf_load_env_file|]. intros _.
  apply keeps_bind; [by apply keeps_same|]. intros paths'.
  apply keeps_load_first, keeps_wf_load_firebase_config.
Qed.

(** The assembly reads [os.environ] and never writes it, and it leaves the
    loaded flag alone. *)
Lemma _build_config_environ p :
  environ (_build_config p).2 = environ p /\
  _loaded (self (_build_config p).2) = _loaded (self p).
Proof.
  destruct (_build_config_cases p) as (c2 & _ & Hrun). cbv zeta in Hrun.
  by destruct Hrun as [(e & _ & ->)|[[_ ->]|(port & _ & ->)]].
Qed.

Lemma keeps_wf_load h (env_file config_file : option string) :
  keeps (fun p => env_wf (environ p)) (load h env_file config_file).
Proof.
  intros p Hp.
  destruct (load_run h env_file config_file p) as (env' & Hf & ->).
  pose proof (keeps_wf_load_files h env_file config_file p Hp) as Hwf.
  rewrite Hf in Hwf. simpl in Hwf.
  pose proof (proj1 (_build_config_environ (with_environ env' p))) as He.
  destruct (_build_config (with_environ env' p)) as [[[]|e] p']; simpl in *;
    by rewrite He.
Qed.

(** What a returning [load] leaves: the instance it returns, loaded, with
    the [aws] section of the environment it leaves. *)
Lemma load_return_inv h (env_file config_file : option string) p s p1 :
  load h env_file config_file p = (Return s, p1) ->
  s = self p1 /\ _loaded (self p1) = true /\
  cfg p1 !! "aws" = Some (aws_section (environ p1)).
Proof.
  destruct (load_run h env_file config_file p) as (env' & _ & ->).
  destruct (_build_config_cases (with_environ env' p)) as (c2 & _ & Hrun).
  cbv zeta in Hrun. simpl in Hrun.
  destruct Hrun as [(e & _ & ->)|[[_ ->]|(port & _ & ->)]]; [done..|].
  intros [= <- <-]. split_and!; [done..|]. unfold cfg. simpl.
  rewrite lookup_insert_ne by done. apply lookup_insert_eq.
Qed.

(** A failing [load] leaves the loaded flag as it was. *)
Lemma load_raise_inv h (env_file config_file : option string) p e p1 :
  load h env_file config_file p = (Raise e, p1) ->
  _loaded (self p1) = _loaded (self p).
Proof.
  destruct (load_run h env_file config_file p) as (env' & _ & ->).
  pose proof (proj2 (_build_config_environ (with_environ env' p))) as Hl.
  destruct (_build_config (with_environ env' p)) as [[[]|e'] p']; [done|].
  by intros [= <- <-].
Qed.

Lemma ensure_loaded_loaded h p :
  _loaded (self p) = true -> ensure_loaded h p = (Return tt, p).
Proof. intros Hl. unfold ensure_loaded, bind, get_self. simpl. by rewrite Hl. Qed.

Lemma getitem_loaded h key p :
  _loaded (self p) = true ->
  __getitem__ h key p
  = (match cfg p !! key with
     | Some v => Return v
     | None => Raise (KeyError key)
     end, p).
Proof.
  intros Hl. unfold __getitem__, bind. rewrite ensure_loaded_loaded by done.
  simpl. unfold cfg. by destruct (_config (self p) !! key).
Qed.

Lemma contains_loaded h key p :
  _loaded (self p) = true ->
  __contains__ h key p = (Return (bool_decide (is_Some (cfg p !! key))), p).
Proof.
  intros Hl. unfold __contains__, bind. by rewrite ensure_loaded_loaded.
Qed.

Lemma get_loaded h key dflt p :
  _loaded (self p) = true ->
  get h key dflt p = (Return (default dflt (cfg p !! key)), p).
Proof. intros Hl. unfold get, bind. by rewrite ensure_loaded_loaded. Qed.

Lemma aws_section_region env :
  exists d, aws_section env = PyDict d /\
            d !! "region"
            = Some (PyStr (default "us-east-1" (env !! "AWS_DEFAULT_REGION"))).
Proof.
  unfold aws_section. cbv zeta. eexists. split; [done|].
  destruct (getenv_bool _).
  - rewrite !lookup_insert_ne by done. apply lookup_singleton_eq.
  - apply lookup_singleton_eq.
Qed.

Lemma aws_region_loaded h p env :
  _loaded (self p) = true -> cfg p !! "aws" = Some (aws_section env) ->
  aws_region h p
  = (Return (PyStr (default "us-east-1" (env !! "AWS_DEFAULT_REGION"))), p).
Proof.
  intros Hl Haws. unfold aws_region, bind. rewrite getitem_loaded by done.
  rewrite Haws. destruct (aws_section_region env) as (d & -> & Hd).
  simpl. by rewrite Hd.
Qed.

(** X7: in a well-formed environment [load_ec2_config] fails exactly where
    [load] does, with the same exception and state; when [load] returns, it
    returns the same instance and leaves [os.environ] as [load] left it
    except that [AWS_DEFAULT_REGION] now holds the resolved region (its old
    value, or [us-east-1] when it was unset). *)
Theorem load_ec2_config_effect h (env_file config_file : option string) p :
  env_wf (environ p) ->
  match load h env_file config_file p with
  | (Return s, p1) =>
      let region := default "us-east-1" (environ p1 !! "AWS_DEFAULT_REGION") in
      load_ec2_config h env_file config_file p
      = (Return s, with_environ (<["AWS_DEFAULT_REGION" := region]> (environ p1)) p1)
  | (Raise e, p1) => load_ec2_config h env_file config_file p = (Raise e, p1)
  end.
Proof.
  intros Hwf. pose proof (keeps_wf_load h env_file config_file p Hwf) as Hwf1.
  destruct (load h env_file config_file p) as [[s|e] p1] eqn:Hload;
    cbv beta iota; unfold load_ec2_config; unfold bind at 1; rewrite Hload;
    [|done].
  destruct (load_return_inv _ _ _ _ _ _ Hload) as (-> & Hl & Haws).
  simpl in Hwf1. cbv zeta.
  set (region := default "us-east-1" (environ p1 !! "AWS_DEFAULT_REGION")).
  unfold bind at 1. rewrite (aws_region_loaded h p1 (environ p1)) by done.
  fold region. unfold bind at 1. simpl.
  assert (putenv_ok "AWS_DEFAULT_REGION" region = true) as Hok.
  { unfold region. destruct (environ p1 !! "AWS_DEFAULT_REGION") as [v|] eqn:Hv.
    - by apply Hwf1.
    - done. }
  unfold os_environ_setitem. rewrite Hok.
  fold (with_environ (<["AWS_DEFAULT_REGION" := region]> (environ p1)) p1).
  set (p2 := with_environ (<["AWS_DEFAULT_REGION" := region]> (environ p1)) p1).
  assert (_loaded (self p2) = true) as Hl2 by done.
  unfold bind at 1. rewrite (aws_region_loaded h p2 (environ p1)) by done.
  unfold bind at 1. rewrite contains_loaded by done.
  unfold bind at 1. rewrite contains_loaded by done.
  done.
Qed.

End invariants.

(* ===================================================================== *)
(** ** The assembly as an overlay *)
(* ===================================================================== *)

(** The fields a mapping contributes, read off the environment. *)
Lemma fields_from_spec env mapping key x :
  NoDup mapping.*1 ->
  fields_from env mapping ∅ !! key = Some x <->
  exists var s, (key, var) ∈ mapping /\ env !! var = Some s /\ s <> "" /\
                x = PyStr s.
Proof.
  intros Hnd. split.
  - intros Hx. destruct (decide (key ∈ mapping.*1)) as [Hin|Hnin].
    + apply list_elem_of_fmap in Hin as ([k var] & -> & Hin). simpl in Hx.
      rewrite (fields_from_lookup _ _ _ k var) in Hx by done.
      destruct (getenv_bool (env !! var)) eqn:Hg; [|done].
      apply getenv_bool_of_getenv in Hg as (s & Hof & Hs & Hne).
      exists var, s. split_and!; [done..|]. congruence.
    + by rewrite fields_from_lookup_notin in Hx.
  - intros (var & s & Hin & Hs & Hne & ->).
    rewrite (fields_from_lookup _ _ _ key var) by done.
    rewrite Hs. unfold getenv_bool. simpl. by destruct (String.eqb_spec s "").
Qed.

Lemma admin_keys_NoDup : NoDup admin_env_mapping.*1.
Proof. by apply (bool_decide_unpack _). Qed.

Lemma cfg_anthropic_union env :
  exists M : gmap string pyvalue, forall c, cfg_anthropic env c = M ∪ c.
Proof.
  unfold cfg_anthropic. destruct (getenv_bool _).
  - eexists. intros c. apply insert_union_singleton_l.
  - exists ∅. intros c. by rewrite (left_id_L ∅ (∪)).
Qed.

Lemma cfg_admin_union env :
  exists M : gmap string pyvalue, forall c, cfg_admin env c = M ∪ c.
Proof.
  unfold cfg_admin. cbv zeta. destruct (bool_decide _).
  - exists ∅. intros c. by rewrite (left_id_L ∅ (∪)).
  - eexists. intros c. apply insert_union_singleton_l.
Qed.

Section overlay.

Context `{JsonLib}.
Implicit Types (p q : Proc) (h : Host).

Local Arguments from_env_mapping : simpl never.
Local Arguments fields_from : simpl never.

(** The second section decides on the environment alone whether it fails
    and what it writes. *)
Lemma build_firebase_union env :
  exists r (M : gmap string pyvalue),
    forall p, environ p = env ->
              build_firebase p = (r, with_config (M ∪ cfg p) p).
Proof.
  assert (forall fc,
            exists r (M : gmap string pyvalue),
              forall p, environ p = env ->
                (fc' <~ (if negb (py_bool fc)
                         then from_env_mapping firebase_env_mapping fc
                         else ret fc) ;;
                 when (py_bool fc') (config_setitem "firebase" fc')) p
                = (r, with_config (M ∪ cfg p) p)) as Hloop.
  { intros fc. destruct (py_bool fc) eqn:Hfc; cbv beta iota delta [negb].
    - exists (Return tt), {[ "firebase" := fc ]}. intros p _.
      unfold bind, ret, when. rewrite Hfc.
      by rewrite <-insert_union_singleton_l.
    - assert ((exists d, fc = PyDict d) \/ (forall d, fc <> PyDict d))
        as [[d ->]|Hnd].
      { destruct fc; (by left; eexists) || (by right). }
      + set (d' := fields_from env firebase_env_mapping d).
        destruct (bool_decide (d' = ∅)) eqn:Hd.
        * exists (Return tt), ∅. intros p <-. unfold bind.
          rewrite from_env_mapping_dict. fold d'. unfold when. simpl.
          rewrite Hd. simpl.
          by rewrite (left_id_L ∅ (∪)), with_config_id.
        * exists (Return tt), {[ "firebase" := PyDict d' ]}. intros p <-.
          unfold bind. rewrite from_env_mapping_dict. fold d'. unfold when.
          simpl. rewrite Hd. simpl. by rewrite <-insert_union_singleton_l.
      + destruct (existsb (fun kv => getenv_bool (env !! kv.2))
                    firebase_env_mapping) eqn:Hex.
        * exists (Raise TypeError), ∅. intros p <-. unfold bind.
          rewrite from_env_mapping_other by done. rewrite Hex.
          by rewrite (left_id_L ∅ (∪)), with_config_id.
        * exists (Return tt), ∅. intros p <-. unfold bind.
          rewrite from_env_mapping_other by done. rewrite Hex.
          unfold when. rewrite Hfc.
          by rewrite (left_id_L ∅ (∪)), with_config_id. }
  assert (forall e, exists r (M : gmap string pyvalue),
            forall p, environ p = env ->
                      (Raise e : result unit, p) = (r, with_config (M ∪ cfg p) p))
    as Hraise.
  { intros e. exists (Raise e), ∅. intros p _.
    by rewrite (left_id_L ∅ (∪)), with_config_id. }
  destruct (getenv_bool (env !! "FIREBASE_CONFIG_JSON")) eqn:Hg.
  - destruct (env !! "FIREBASE_CONFIG_JSON") as [t|] eqn:Ht.
    + destruct (json_loads t) as [v|e] eqn:Hl.
      * destruct (Hloop v) as (r & M & HM). exists r, M. intros p Hp.
        rewrite build_firebase_stages, Hp, Ht, Hg, Hl. by apply HM.
      * assert (e = JSONDecodeError \/ e <> JSONDecodeError) as [->|Hne]
          by (destruct e; (by left) || (by right)).
        -- destruct (Hloop (PyDict ∅)) as (r & M & HM). exists r, M.
           intros p Hp.
           rewrite build_firebase_stages, Hp, Ht, Hg, Hl. by apply HM.
        -- destruct (Hraise e) as (r & M & HM). exists r, M. intros p Hp.
           rewrite build_firebase_stages, Hp, Ht, Hg, Hl.
           rewrite <-(HM p Hp). by destruct e.
    + destruct (Hraise TypeError) as (r & M & HM). exists r, M. intros p Hp.
      rewrite build_firebase_stages, Hp, Ht, Hg. by apply HM.
  - destruct (Hloop (PyDict ∅)) as (r & M & HM). exists r, M. intros p Hp.
    rewrite build_firebase_stages, Hp, Hg. by apply HM.
Qed.

(** The whole assembly: outcome and overlay are functions of the
    environment. *)
Lemma _build_config_union env :
  exists r (M : gmap string pyvalue),
    forall p, environ p = env ->
              _build_config p = (r, with_config (M ∪ cfg p) p).
Proof.
  destruct (cfg_anthropic_union env) as (Ma & Ha).
  destruct (build_firebase_union env) as (rf & Mf & Hf).
  destruct (cfg_admin_union env) as (Md & Hd).
  destruct rf as [[]|e].
  - destruct (PyStr.int (port_text env)) as [port|] eqn:Hport.
    + exists (Return tt),
        ({[ "app" := app_section env port ]} ∪
         ({[ "aws" := aws_section env ]} ∪ (Md ∪ (Mf ∪ Ma)))).
      intros p Hp. rewrite _build_config_run. cbv zeta. rewrite Hp.
      rewrite Hf by done. rewrite Hport, cfg_with_config, Hd, Ha, cfg_with_config.
      by rewrite !insert_union_singleton_l, !(assoc_L (∪)).
    + exists (Raise ValueError),
        ({[ "aws" := aws_section env ]} ∪ (Md ∪ (Mf ∪ Ma))).
      intros p Hp. rewrite _build_config_run. cbv zeta. rewrite Hp.
      rewrite Hf by done. rewrite Hport, cfg_with_config, Hd, Ha, cfg_with_config.
      by rewrite !insert_union_singleton_l, !(assoc_L (∪)).
  - exists (Raise e), (Mf ∪ Ma).
    intros p Hp. rewrite _build_config_run. cbv zeta. rewrite Hp.
    rewrite Hf by done. rewrite cfg_with_config, Ha, with_config_twice.
    by rewrite !(assoc_L (∪)).
Qed.

(** X8: [_build_config] is an overlay: whether it returns or raises, and the
    entries it writes, depend on [os.environ] alone; what the instance held
    before shows through wherever the overlay has no entry, and neither
    [os.environ] nor the loaded flag changes. *)
Theorem _build_config_overlay (env : gmap string string) :
  exists r (M : gmap string pyvalue),
    dom M ⊆ section_names /\
    forall s : EC2Secrets,
      _build_config {| environ := env; self := s |}
      = (r, {| environ := env;
               self := {| _config := M ∪ _config s;
                          _loaded := _loaded s |} |}).
Proof.
  destruct (_build_config_union env) as (r & M & HM). exists r, M. split.
  - pose proof (_build_config_dom (fresh env)) as Hdom.
    rewrite (HM (fresh env) eq_refl) in Hdom. simpl in Hdom.
    rewrite cfg_with_config in Hdom. unfold cfg, fresh in Hdom. simpl in Hdom.
    rewrite (right_id_L ∅ (∪)), dom_empty_L, (right_id_L ∅ (∪)) in Hdom. done.
  - intros s. by rewrite (HM {| environ := env; self := s |} eq_refl).
Qed.

(** X9: rebuilding is idempotent: run again on the state it has left, in
    the same environment, [_build_config] has the same outcome and changes
    nothing more; this holds for a run that raises as for one that
    returns. *)
Theorem _build_config_idempotent p :
  _build_config (_build_config p).2 = _build_config p.
Proof.
  destruct (_build_config_union (environ p)) as (r & M & HM).
  rewrite (HM p eq_refl). cbn [snd].
  rewrite (HM (with_config (M ∪ cfg p) p)) by done.
  rewrite cfg_with_config, with_config_twice.
  by rewrite (assoc_L (∪)), (idemp_L (∪)).
Qed.

End overlay.

(* ===================================================================== *)
(** ** Reloading, and the accessors when [load] fails *)
(* ===================================================================== *)

Section reload.

Context `{JsonLib}.
Implicit Types (p : Proc) (h : Host).

Lemma load_cfg_union h (env_file config_file : option string) p :
  exists M : gmap string pyvalue,
    cfg (load h env_file config_file p).2 = M ∪ cfg p.
Proof.
  destruct (load_run h env_file config_file p) as (env' & _ & ->).
  destruct (_build_config_union env') as (r & M & HM).
  rewrite (HM (with_environ env' p) eq_refl). exists M.
  by destruct r as [[]|e].
Qed.

(** X10: [load] never removes an entry: called again on an instance, it
    leaves every key the mapping had, also the section whose variables have
    been unset in the meantime, and also when it raises. *)
Theorem load_never_removes h (env_file config_file : option string) p :
  dom (cfg p) ⊆ dom (cfg (load h env_file config_file p).2).
Proof.
  destruct (load_cfg_union h env_file config_file p) as (M & ->).
  rewrite dom_union_L. set_solver.
Qed.

Lemma keys_loaded h p :
  _loaded (self p) = true -> keys h p = (Return (dom (cfg p)), p).
Proof. intros Hl. unfold keys, bind. by rewrite ensure_loaded_loaded. Qed.

Lemma items_loaded h p :
  _loaded (self p) = true -> items h p = (Return (map_to_list (cfg p)), p).
Proof. intros Hl. unfold items, bind. by rewrite ensure_loaded_loaded. Qed.

Lemma ensure_loaded_raise h p e p' :
  _loaded (self p) = false -> load h None None p = (Raise e, p') ->
  ensure_loaded h p = (Raise e, p').
Proof.
  intros Hl Hload. unfold ensure_loaded. unfold bind at 1. unfold get_self.
  rewrite Hl. unfold bind. by rewrite Hload.
Qed.

(** X11: on an instance that is not loaded, an accessor whose implicit
    [load] fails raises the exception of [load] and returns nothing; the
    instance stays unloaded, so that the next access runs [load] again. *)
Theorem accessors_when_load_fails h key dflt p e p' :
  _loaded (self p) = false ->
  load h None None p = (Raise e, p') ->
  __contains__ h key p = (Raise e, p') /\
  __getitem__ h key p = (Raise e, p') /\
  get h key dflt p = (Raise e, p') /\
  keys h p = (Raise e, p') /\
  items h p = (Raise e, p') /\
  _loaded (self p') = false.
Proof.
  intros Hl Hload. pose proof (ensure_loaded_raise h p e p' Hl Hload) as He.
  unfold __contains__, __getitem__, get, keys, items, bind. rewrite He.
  split_and!; [done..|].
  by rewrite (load_raise_inv _ _ _ _ _ _ Hload).
Qed.

Lemma ensure_loaded_return h p s p' :
  _loaded (self p) = false -> load h None None p = (Return s, p') ->
  ensure_loaded h p = (Return tt, p').
Proof.
  intros Hl Hload. unfold ensure_loaded. unfold bind at 1. unfold get_self.
  rewrite Hl. unfold bind. by rewrite Hload.
Qed.

(** X18: the first access loads, and only the first: on an instance that
    is not loaded, when the implicit [load] returns, every accessor reads
    the configuration that [load] has returned and leaves the state that
    [load] has left: [__getitem__] raises [KeyError] on a key that
    configuration lacks where [get] returns the default, and both return
    the value of a key it has; an access after that gives the same answer
    and changes nothing, without loading again. *)
Theorem accessors_load_once h key dflt p s p' :
  _loaded (self p) = false ->
  load h None None p = (Return s, p') ->
  let found := _config s !! key in
  let item := match found with
              | Some v => Return v
              | None => Raise (KeyError key)
              end in
  __contains__ h key p = (Return (bool_decide (is_Some found)), p') /\
  __getitem__ h key p = (item, p') /\
  get h key dflt p = (Return (default dflt found), p') /\
  keys h p = (Return (dom (_config s)), p') /\
  items h p = (Return (map_to_list (_config s)), p') /\
  __contains__ h key p' = (Return (bool_decide (is_Some found)), p') /\
  __getitem__ h key p' = (item, p') /\
  get h key dflt p' = (Return (default dflt found), p').
Proof.
  intros Hl Hload. cbv zeta.
  pose proof (ensure_loaded_return h p s p' Hl Hload) as He.
  destruct (load_return_inv _ _ _ _ _ _ Hload) as (-> & Hl' & _).
  split_and!.
  - unfold __contains__, bind. by rewrite He.
  - unfold __getitem__, bind. rewrite He. simpl.
    by destruct (_config (self p') !! key).
  - unfold get, bind. by rewrite He.
  - unfold keys, bind. by rewrite He.
  - unfold items, bind. by rewrite He.
  - by apply contains_loaded.
  - by apply getitem_loaded.
  - by apply get_loaded.
Qed.

End reload.

(* ===================================================================== *)
(** ** The module-level functions *)
(* ===================================================================== *)

Lemma env_set_insert_ne env k v name :
  name <> k -> env_set (<[k := v]> env) name <-> env_set env name.
Proof. intros Hne. unfold env_set. by rewrite lookup_insert_ne. Qed.

Lemma env_set_getenv_bool env name :
  env_set env name <-> getenv_bool (env !! name) = true.
Proof. unfold env_set. by rewrite getenv_bool_true. Qed.

Section module_level.

Context `{JsonLib}.
Implicit Types (p : Proc) (h : Host).

Local Arguments fields_from : simpl never.

(** What a returning [load_ec2_config] has done. *)
Lemma load_ec2_config_return_inv h (env_file config_file : option string)
    p s p1 :
  load_ec2_config h env_file config_file p = (Return s, p1) ->
  exists pL,
    load h env_file config_file p = (Return (self pL), pL) /\
    _loaded (self pL) = true /\
    let r := default "us-east-1" (environ pL !! "AWS_DEFAULT_REGION") in
    putenv_ok "AWS_DEFAULT_REGION" r = true /\
    p1 = with_environ (<["AWS_DEFAULT_REGION" := r]> (environ pL)) pL /\
    s = self pL.
Proof.
  unfold load_ec2_config. unfold bind at 1.
  destruct (load h env_file config_file p) as [[sL|e] pL] eqn:Hload; [|done].
  destruct (load_return_inv _ _ _ _ _ _ Hload) as (-> & Hl & Haws).
  unfold bind at 1. rewrite (aws_region_loaded h pL (environ pL)) by done.
  unfold bind at 1. cbn [os_environ_setitem_value].
  unfold os_environ_setitem.
  destruct (putenv_ok "AWS_DEFAULT_REGION" _) eqn:Hok; [|done].
  match goal with
  | |- context [{| environ := ?e; self := self pL |}] =>
      change {| environ := e; self := self pL |} with (with_environ e pL)
  end.
  set (p2 := with_environ _ pL).
  assert (_loaded (self p2) = true) as Hl2 by done.
  unfold bind at 1. rewrite (aws_region_loaded h p2 (environ pL)) by done.
  unfold bind at 1. rewrite contains_loaded by done.
  unfold bind at 1. rewrite contains_loaded by done.
  unfold get_self. intros [= <- <-]. exists pL. by split_and!.
Qed.

Lemma section_has_loaded h name field p :
  _loaded (self p) = true ->
  section_has h name field p
  = match cfg p !! name with
    | None => (Done false, p)
    | Some (PyDict d) => (Done (py_bool (default PyNone (d !! field))), p)
    | Some _ => (Fail AttributeError, p)
    end.
Proof.
  intros Hl. unfold section_has. unfold bindX at 1. unfold liftX at 1.
  rewrite contains_loaded by done.
  destruct (cfg p !! name) as [v|] eqn:Hv.
  - rewrite bool_decide_eq_true_2 by done.
    unfold bindX at 1. unfold liftX. rewrite get_loaded by done. rewrite Hv.
    by destruct v.
  - rewrite bool_decide_eq_false_2; [done|]. by intros [? ?].
Qed.

(** X12: [check_configuration] raises [AttributeError] when the [firebase]
    entry is not a dictionary, which is what a [FIREBASE_CONFIG_JSON] or a
    [firebase-config.json] holding a JSON array, string or number other
    than zero gives: the entry is there, and it has no [get]. *)
Theorem check_configuration_attribute_error h p s p1 v :
  load_ec2_config h None None p = (Return s, p1) ->
  cfg p1 !! "firebase" = Some v ->
  (forall d, v <> PyDict d) ->
  check_configuration h p = (Fail AttributeError, p1).
Proof.
  intros Hload Hv Hnd.
  destruct (load_ec2_config_return_inv _ _ _ _ _ _ Hload)
    as (pL & _ & Hl & _ & -> & _).
  unfold check_configuration. unfold bindX at 1. unfold liftX at 1.
  rewrite Hload. unfold bindX at 1. unfold liftX at 1.
  rewrite contains_loaded by done.
  unfold bindX at 1. rewrite section_has_loaded by done. rewrite Hv.
  destruct v as [| | | | | |d]; try done. by destruct (Hnd d).
Qed.

(** The [firebase] entry of a fresh instance after [load], when no JSON
    text is used. *)
Lemma load_fresh_firebase_env h (env_file config_file : option string)
    env s pL :
  load h env_file config_file (fresh env) = (Return s, pL) ->
  json_absent_or_invalid (environ pL) ->
  cfg pL !! "firebase"
  = let d := fields_from (environ pL) firebase_env_mapping ∅ in
    if bool_decide (d = ∅) then None else Some (PyDict d).
Proof.
  destruct (load_run h env_file config_file (fresh env)) as (env' & _ & ->).
  set (q := with_environ env' (fresh env)).
  pose proof (_build_config_firebase q) as Hfb.
  pose proof (proj1 (_build_config_environ q)) as Henv.
  destruct (_build_config q) as [[[]|e] p'] eqn:Hrun; [|done].
  cbn [snd] in Hfb, Henv. intros [= <- <-]. cbn [environ]. intros Hj.
  change (cfg p' !! "firebase"
          = let d := fields_from (environ p') firebase_env_mapping ∅ in
            if bool_decide (d = ∅) then None else Some (PyDict d)).
  rewrite Henv in Hj |- *. rewrite Hfb.
  rewrite build_firebase_env by exact Hj. cbv zeta.
  cbn [environ with_config q with_environ].
  destruct (bool_decide (fields_from env' firebase_env_mapping ∅ = ∅)).
  - cbn [snd]. rewrite cfg_with_config, cfg_anthropic_lookup.
    by case_decide.
  - cbn [snd]. rewrite cfg_with_config. apply lookup_insert_eq.
Qed.

(** The run of [check_configuration] once [load_ec2_config] has returned,
    when the two sections it inspects are dictionaries. *)
Lemma check_configuration_run h p s p1 :
  load_ec2_config h None None p = (Return s, p1) ->
  (forall v, cfg p1 !! "firebase" = Some v -> exists d, v = PyDict d) ->
  (forall v, cfg p1 !! "admin" = Some v -> exists d, v = PyDict d) ->
  let field name key :=
    match cfg p1 !! name with
    | Some (PyDict d) => py_bool (default PyNone (d !! key))
    | _ => false
    end in
  check_configuration h p
  = (Done (<["anthropic_api" :=
               PyBool (bool_decide (is_Some (cfg p1 !! "ANTHROPIC_API_KEY")))]>
             (<["firebase" := PyBool (field "firebase" "project_id")]>
                (<["admin" := PyBool (field "admin" "email")]>
                   {[ "aws_region" :=
                        PyBool (negb (String.eqb
                                        (default "" (environ p1 !! "AWS_DEFAULT_REGION"))
                                        "")) ]}))), p1).
Proof.
  intros Hload Hfb Had. cbv zeta.
  destruct (load_ec2_config_return_inv _ _ _ _ _ _ Hload)
    as (pL & HloadL & Hl & Hok & E & _). cbv zeta in Hok, E.
  destruct (load_return_inv _ _ _ _ _ _ HloadL) as (_ & _ & Haws).
  assert (_loaded (self p1) = true) as Hl1 by (by rewrite E).
  assert (cfg p1 !! "aws" = Some (aws_section (environ pL))) as Haws1
    by (by rewrite E).
  assert (environ p1 !! "AWS_DEFAULT_REGION"
          = Some (default "us-east-1" (environ pL !! "AWS_DEFAULT_REGION")))
    as Hreg by (rewrite E; apply lookup_insert_eq).
  clear E.
  unfold check_configuration. unfold bindX at 1. unfold liftX at 1.
  rewrite Hload. unfold bindX at 1. unfold liftX at 1.
  rewrite contains_loaded by done.
  unfold bindX at 1. rewrite section_has_loaded by done.
  assert (forall name key,
            (forall v, cfg p1 !! name = Some v -> exists d, v = PyDict d) ->
            match cfg p1 !! name with
            | None => (Done false, p1)
            | Some (PyDict d) =>
                (Done (py_bool (default PyNone (d !! key))), p1)
            | Some _ => (Fail AttributeError, p1)
            end
            = (Done match cfg p1 !! name with
                    | Some (PyDict d) => py_bool (default PyNone (d !! key))
                    | _ => false
                    end, p1)) as Hsec.
  { intros name key Hd. destruct (cfg p1 !! name) as [v|]; [|done].
    by destruct (Hd v eq_refl) as [d ->]. }
  rewrite Hsec by done.
  unfold bindX at 1. rewrite section_has_loaded by done.
  rewrite Hsec by done.
  unfold bindX at 1. unfold liftX at 1.
  rewrite (aws_region_loaded h p1 (environ pL)) by done.
  unfold retX. rewrite Hreg. done.
Qed.

(** X13: the status [check_configuration] returns on a fresh instance when
    the [firebase] entry, if any, is a dictionary: [anthropic_api],
    [admin] and [aws_region] say whether [ANTHROPIC_API_KEY], [ADMIN_EMAIL]
    and [AWS_DEFAULT_REGION] are non-empty in the environment left behind.
    So a region set to the empty string is reported as missing, an unset
    region is not (it has been set to [us-east-1] by then), and an [admin]
    section without [ADMIN_EMAIL] is reported as missing.  [firebase] says
    whether the section has a truthy [project_id], which without a JSON
    text is whether [FIREBASE_PROJECT_ID] is non-empty. *)
Theorem check_configuration_status h env s p1 :
  load_ec2_config h None None (fresh env) = (Return s, p1) ->
  (forall v, cfg p1 !! "firebase" = Some v -> exists d, v = PyDict d) ->
  exists a f d r : bool,
    check_configuration h (fresh env)
    = (Done (<["anthropic_api" := PyBool a]>
               (<["firebase" := PyBool f]>
                  (<["admin" := PyBool d]>
                     {[ "aws_region" := PyBool r ]}))), p1) /\
    (a = true <-> env_set (environ p1) "ANTHROPIC_API_KEY") /\
    (f = true <-> exists fb x, cfg p1 !! "firebase" = Some (PyDict fb) /\
                               fb !! "project_id" = Some x /\
                               py_bool x = true) /\
    (json_absent_or_invalid (environ p1) ->
     (f = true <-> env_set (environ p1) "FIREBASE_PROJECT_ID")) /\
    (d = true <-> env_set (environ p1) "ADMIN_EMAIL") /\
    (r = true <-> env_set (environ p1) "AWS_DEFAULT_REGION").
Proof.
  intros Hload Hfb.
  destruct (load_ec2_config_return_inv _ _ _ _ _ _ Hload)
    as (pL & HloadL & Hl & Hok & E & _). cbv zeta in Hok, E.
  set (envL := environ pL) in *.
  assert (cfg p1 = cfg pL) as Hcfg1 by (by rewrite E).
  assert (forall name, name <> "AWS_DEFAULT_REGION" ->
                       environ p1 !! name = envL !! name) as Hother.
  { intros name Hne. rewrite E. cbn [environ with_environ].
    by rewrite lookup_insert_ne. }
  destruct (load_fresh_return _ _ _ _ _ _ HloadL)
    as (_ & _ & port & fbo & _ & _ & Hcfg).
  fold envL in Hcfg. change (_config (self pL)) with (cfg pL) in Hcfg.
  assert (cfg pL !! "ANTHROPIC_API_KEY"
          = if getenv_bool (envL !! "ANTHROPIC_API_KEY")
            then Some (of_getenv (envL !! "ANTHROPIC_API_KEY")) else None)
    as Hak.
  { rewrite Hcfg. by repeat case_decide. }
  assert (cfg pL !! "admin"
          = let d := fields_from envL admin_env_mapping ∅ in
            if bool_decide (d = ∅) then None else Some (PyDict d)) as Had.
  { rewrite Hcfg. by repeat case_decide. }
  clear Hcfg.
  pose proof (check_configuration_run h (fresh env) s p1 Hload Hfb) as Hrun.
  cbv zeta in Hrun. rewrite Hrun.
  2:{ intros v. rewrite Hcfg1, Had. cbv zeta.
      destruct (bool_decide (fields_from envL admin_env_mapping ∅ = ∅));
        [done|]. intros [= <-]. by eexists. }
  clear Hrun. eexists _, _, _, _. split; [reflexivity|].
  split_and!.
  - rewrite Hcfg1, Hak, env_set_getenv_bool, Hother by done.
    destruct (getenv_bool (envL !! "ANTHROPIC_API_KEY")).
    + by rewrite bool_decide_eq_true_2.
    + rewrite bool_decide_eq_false_2; [done|]. by intros [? ?].
  - destruct (cfg p1 !! "firebase") as [v|] eqn:Hv.
    + destruct (Hfb v eq_refl) as [fb ->]. split.
      * destruct (fb !! "project_id") as [x|] eqn:Hx; [|done].
        intros Hb. by exists fb, x.
      * intros (fb' & x & [= <-] & Hx & Hb). by rewrite Hx.
    + split; [done|]. by intros (? & ? & ? & _).
  - intros Hj.
    assert (json_absent_or_invalid envL) as HjL.
    { unfold json_absent_or_invalid in *. by rewrite <-Hother. }
    rewrite Hcfg1, (load_fresh_firebase_env _ _ _ _ _ _ HloadL HjL).
    fold envL. cbv zeta.
    rewrite env_set_getenv_bool, Hother by done.
    destruct (bool_decide_reflect
                (fields_from envL firebase_env_mapping ∅ = ∅)) as [Ee|Ee].
    + assert (getenv_bool (envL !! "FIREBASE_PROJECT_ID") = false) as ->; [|done].
      apply (proj1 (fields_from_empty _ _) Ee
               ("project_id", "FIREBASE_PROJECT_ID")).
      by apply (bool_decide_unpack _).
    + rewrite (fields_from_lookup _ _ _ "project_id" "FIREBASE_PROJECT_ID");
        [|apply firebase_keys_NoDup|by apply (bool_decide_unpack _)].
      destruct (getenv_bool (envL !! "FIREBASE_PROJECT_ID")) eqn:Hg; [|done].
      apply getenv_bool_of_getenv in Hg as (x & -> & _ & Hne). simpl.
      by destruct (String.eqb_spec x "").
  - rewrite Hcfg1, Had. cbv zeta.
    rewrite env_set_getenv_bool, Hother by done.
    destruct (bool_decide_reflect
                (fields_from envL admin_env_mapping ∅ = ∅)) as [Ee|Ee].
    + assert (getenv_bool (envL !! "ADMIN_EMAIL") = false) as ->; [|done].
      apply (proj1 (fields_from_empty _ _) Ee ("email", "ADMIN_EMAIL")).
      by apply (bool_decide_unpack _).
    + rewrite (fields_from_lookup _ _ _ "email" "ADMIN_EMAIL");
        [|apply admin_keys_NoDup|by apply (bool_decide_unpack _)].
      destruct (getenv_bool (envL !! "ADMIN_EMAIL")) eqn:Hg; [|done].
      apply getenv_bool_of_getenv in Hg as (x & -> & _ & Hne). simpl.
      by destruct (String.eqb_spec x "").
  - unfold env_set.
    destruct (environ p1 !! "AWS_DEFAULT_REGION") as [x|]; simpl.
    + destruct (String.eqb_spec x ""); simpl.
      * split; [done|]. intros (? & [= <-] & ?). done.
      * split; [eauto|done].
    + split; [done|]. by intros (? & ? & ?).
Qed.

End module_level.

(* ===================================================================== *)
(** ** The launcher, and the sections in detail *)
(* ===================================================================== *)

Lemma setitem_present k v p :
  environ p !! k = Some v -> putenv_ok k v = true ->
  os_environ_setitem k v p = (Return tt, p).
Proof.
  intros Hk Hok. unfold os_environ_setitem. rewrite Hok.
  rewrite insert_id by done. by destruct p.
Qed.

Lemma slice_to_all n s : (String.length s <= n)%nat -> slice_to n s = s.
Proof.
  revert n. induction s as [|c s IH]; intros [|n] Hn; simpl in *;
    try done; try lia. rewrite IH; [done|lia].
Qed.

Lemma slice_to_from n s : slice_to n s +:+ slice_from n s = s.
Proof.
  revert n. induction s as [|c s IH]; intros [|n]; simpl; try done.
  rewrite app_cons. f_equal. apply IH.
Qed.

Lemma length_slice_to n s :
  String.length (slice_to n s) = (n `min` String.length s)%nat.
Proof.
  revert n. induction s as [|c s IH]; intros [|n]; simpl; try done.
  f_equal. apply IH.
Qed.

Lemma length_slice_from n s :
  String.length (slice_from n s) = (String.length s - n)%nat.
Proof.
  revert n. induction s as [|c s IH]; intros [|n]; simpl; try done.
Qed.

Lemma slice_from_add n m s :
  slice_from (n + m) s = slice_from m (slice_from n s).
Proof.
  revert n. induction s as [|c s IH]; intros [|n]; simpl; try done.
  by destruct m.
Qed.

Lemma length_app' s t :
  String.length (s +:+ t) = (String.length s + String.length t)%nat.
Proof.
  induction s as [|c s IH]; [done|]. rewrite app_cons. simpl. by rewrite IH.
Qed.

(** X14: the line [print_config_status] prints for the API key masks only
    a long key: a key of at most ten characters is printed in full; of a
    key of more than fourteen the first ten and the last four characters
    are printed and the [len(key) - 14] between them are not; in no case
    are more than fourteen characters of the key printed. *)
Theorem api_key_line_masking (key : string) :
  let n := String.length key in
  ((n <= 10)%nat -> api_key_line key = "   API Key: " +:+ key +:+ "...") /\
  ((14 < n)%nat ->
   exists hidden,
     key = slice_to 10 key +:+ hidden +:+ slice_last 4 key /\
     String.length hidden = (n - 14)%nat /\
     api_key_line key
     = "   API Key: " +:+ slice_to 10 key +:+ "..." +:+ slice_last 4 key) /\
  (String.length (api_key_line key) <= 29)%nat.
Proof.
  intros n. split_and!.
  - intros Hn. unfold api_key_line. rewrite slice_to_all by done.
    fold n. destruct (Nat.ltb_spec 14 n) as [Hlt|_]; [lia|].
    by rewrite app_empty_r.
  - intros Hn. exists (slice_to (n - 14) (slice_from 10 key)). split_and!.
    + unfold slice_last. fold n.
      replace (n - 4)%nat with (10 + (n - 14))%nat by lia.
      by rewrite slice_from_add, !slice_to_from.
    + rewrite length_slice_to, length_slice_from. fold n. lia.
    + unfold api_key_line. fold n.
      by destruct (Nat.ltb_spec 14 n) as [_|Hge]; [|lia].
  - unfold api_key_line. fold n.
    rewrite !length_app', length_slice_to. fold n.
    change (String.length "   API Key: ") with 12%nat.
    change (String.length "...") with 3%nat.
    destruct (Nat.ltb_spec 14 n) as [Hlt|Hge].
    + unfold slice_last. rewrite length_slice_from. fold n. lia.
    + change (String.length "") with 0%nat. lia.
Qed.

Section sections.

Context `{JsonLib}.
Implicit Types (p : Proc) (h : Host).

Local Arguments fields_from : simpl never.

(** X15: the launcher's two assignments to [os.environ] change nothing: in a
    well-formed environment the module-level code of
    [streamlit_app_ec2.py] fails exactly where [load_ec2_config] does and
    otherwise leaves the process as [load_ec2_config] left it, since
    [ANTHROPIC_API_KEY] and [AWS_DEFAULT_REGION] already hold the values
    written back. *)
Theorem streamlit_app_ec2_effect h (env : gmap string string) :
  env_wf env ->
  streamlit_app_ec2 h (fresh env)
  = match load_ec2_config h None None (fresh env) with
    | (Return _, p1) => (Return tt, p1)
    | (Raise e, p1) => (Raise e, p1)
    end.
Proof.
  intros Hwf. unfold streamlit_app_ec2. unfold bind at 1.
  destruct (load_ec2_config h None None (fresh env)) as [[s|e] p1] eqn:Hload;
    [|done].
  destruct (load_ec2_config_return_inv _ _ _ _ _ _ Hload)
    as (pL & HloadL & Hl & Hok & E & _). cbv zeta in Hok, E.
  pose proof (keeps_wf_load h None None (fresh env) Hwf) as HwfL.
  rewrite HloadL in HwfL. cbn [snd] in HwfL.
  destruct (load_return_inv _ _ _ _ _ _ HloadL) as (_ & _ & Haws).
  destruct (load_fresh_return _ _ _ _ _ _ HloadL)
    as (_ & _ & port & fbo & _ & _ & Hcfg).
  change (_config (self pL)) with (cfg pL) in Hcfg.
  assert (cfg pL !! "ANTHROPIC_API_KEY"
          = if getenv_bool (environ pL !! "ANTHROPIC_API_KEY")
            then Some (of_getenv (environ pL !! "ANTHROPIC_API_KEY"))
            else None) as Hak.
  { rewrite Hcfg. by repeat case_decide. }
  clear Hcfg.
  set (region := default "us-east-1" (environ pL !! "AWS_DEFAULT_REGION")) in *.
  assert (_loaded (self p1) = true) as Hl1 by (by rewrite E).
  assert (cfg p1 = cfg pL) as Hcfg1 by (by rewrite E).
  assert (environ p1 !! "AWS_DEFAULT_REGION" = Some region) as Hreg
    by (rewrite E; apply lookup_insert_eq).
  assert (environ p1 !! "ANTHROPIC_API_KEY"
          = environ pL !! "ANTHROPIC_API_KEY") as Hkey
    by (rewrite E; by apply lookup_insert_ne).
  clear E.
  assert ((region0 <~ aws_region h ;;
           os_environ_setitem_value "AWS_DEFAULT_REGION" region0) p1
          = (Return tt, p1)) as Hlast.
  { unfold bind. rewrite (aws_region_loaded h p1 (environ pL))
      by (done || by rewrite Hcfg1).
    fold region. cbn [os_environ_setitem_value].
    by apply setitem_present. }
  unfold bind at 1. rewrite contains_loaded by done.
  rewrite Hcfg1, Hak.
  destruct (getenv_bool (environ pL !! "ANTHROPIC_API_KEY")) eqn:Hg.
  - rewrite bool_decide_eq_true_2 by done.
    unfold bind at 1. unfold bind at 1. rewrite getitem_loaded by done.
    rewrite Hcfg1, Hak.
    apply getenv_bool_of_getenv in Hg as (x & -> & Hx & Hne).
    cbn [os_environ_setitem_value]. rewrite setitem_present.
    + exact Hlast.
    + by rewrite Hkey.
    + by apply HwfL.
  - rewrite bool_decide_eq_false_2 by (by intros [? ?]).
    unfold bind at 1. unfold ret at 1. exact Hlast.
Qed.

(** X16: in the [aws] section the two credentials come together or not at
    all: with a non-empty [AWS_ACCESS_KEY_ID] the section holds it and the
    secret, which is the empty string when [AWS_SECRET_ACCESS_KEY] is
    unset; without one it holds neither, whatever [AWS_SECRET_ACCESS_KEY]
    is; and it has no field but [region] and these two. *)
Theorem aws_credentials_together h (env_file config_file : option string)
    p s p1 :
  load h env_file config_file p = (Return s, p1) ->
  exists aws : gmap string pyvalue,
    _config s !! "aws" = Some (PyDict aws) /\
    (forall k, environ p1 !! "AWS_ACCESS_KEY_ID" = Some k -> k <> "" ->
       aws !! "access_key_id" = Some (PyStr k) /\
       aws !! "secret_access_key"
       = Some (PyStr (default "" (environ p1 !! "AWS_SECRET_ACCESS_KEY")))) /\
    (~ env_set (environ p1) "AWS_ACCESS_KEY_ID" ->
       aws !! "access_key_id" = None /\ aws !! "secret_access_key" = None) /\
    dom aws ⊆ {[ "region"; "access_key_id"; "secret_access_key" ]}.
Proof.
  intros (port & _ & _ & Haws)%load_return_aws_app.
  unfold aws_section in Haws. cbv zeta in Haws.
  eexists. split; [exact Haws|]. clear Haws.
  destruct (getenv_bool (environ p1 !! "AWS_ACCESS_KEY_ID")) eqn:Hg.
  - split_and!.
    + intros k Hk Hne. rewrite Hk. split.
      * rewrite lookup_insert_ne by done. apply lookup_insert_eq.
      * apply lookup_insert_eq.
    + intros Hns. exfalso. by apply Hns, env_set_getenv_bool.
    + rewrite !dom_insert_L, dom_singleton_L. set_solver.
  - split_and!.
    + intros k Hk Hne. exfalso.
      assert (getenv_bool (environ p1 !! "AWS_ACCESS_KEY_ID") = true)
        by (apply getenv_bool_true; eauto).
      congruence.
    + intros _. by rewrite !lookup_singleton_ne.
    + rewrite dom_singleton_L. set_solver.
Qed.

(** X17: on a fresh instance the [admin] section has a field exactly for
    each of [ADMIN_EMAIL], [ADMIN_PASSWORD] and [ADMIN_KEY] that is set to
    a non-empty string, with that string as its value. *)
Theorem admin_section_fields h (env_file config_file : option string)
    env s p1 (field : string) (x : pyvalue) :
  load h env_file config_file (fresh env) = (Return s, p1) ->
  (exists d : gmap string pyvalue,
      _config s !! "admin" = Some (PyDict d) /\ d !! field = Some x) <->
  (exists var v, (field, var) ∈ admin_env_mapping /\
                 environ p1 !! var = Some v /\ v <> "" /\ x = PyStr v).
Proof.
  intros Hload.
  destruct (load_fresh_return _ _ _ _ _ _ Hload)
    as (_ & _ & port & fbo & _ & _ & Hcfg).
  assert (_config s !! "admin"
          = let d := fields_from (environ p1) admin_env_mapping ∅ in
            if bool_decide (d = ∅) then None else Some (PyDict d)) as Had.
  { rewrite Hcfg. by repeat case_decide. }
  clear Hcfg. cbv zeta in Had.
  rewrite <-(fields_from_spec (environ p1) admin_env_mapping field x)
    by apply admin_keys_NoDup.
  destruct (bool_decide_reflect
              (fields_from (environ p1) admin_env_mapping ∅ = ∅)) as [Ee|Ee].
  - rewrite Had, Ee. split; [by intros (? & ? & _)|by rewrite lookup_empty].
  - rewrite Had. split.
    + by intros (d & [= <-] & Hd).
    + intros Hx. eauto.
Qed.

End sections.

(* ===================================================================== *)
(** ** More concrete runs *)
(* ===================================================================== *)

Lemma lines_accepted_spec lines :
  lines_accepted lines = true ->
  forall ln kv, ln ∈ lines -> declared ln = Some kv ->
                putenv_ok kv.1 kv.2 = true.
Proof.
  unfold lines_accepted. rewrite forallb_forall.
  intros Hall ln [k v] Hin Hd. apply list_elem_of_In in Hin.
  specialize (Hall ln Hin). by rewrite Hd in Hall.
Qed.

Lemma lines_leave_spec k lines :
  lines_leave k lines = true ->
  forall ln v, ln ∈ lines -> declared ln <> Some (k, v).
Proof.
  unfold lines_leave. rewrite forallb_forall.
  intros Hall ln v Hin Hd. apply list_elem_of_In in Hin.
  specialize (Hall ln Hin). rewrite Hd in Hall.
  by rewrite String.eqb_refl in Hall.
Qed.

Lemma env_wf_checked (env : gmap string string) :
  bool_decide (map_Forall (fun k v => putenv_ok k v = true) env) = true ->
  env_wf env.
Proof. intros Hb. by apply bool_decide_eq_true_1 in Hb. Qed.

Lemma _load_env_file_frame_witness :
  environ (_load_env_file host_dotenv ".env" (fresh {[ "D" := "0" ]})).2 !! "D"
  = Some "0".
Proof.
  destruct (_load_env_file_frame host_dotenv ".env" (fresh {[ "D" := "0" ]}))
    as (env' & Hrun & Hk).
  rewrite Hrun. cbn [snd environ with_environ].
  change (fs host_dotenv ".env") with (Text dotenv_twice) in Hk.
  rewrite (Hk "D").
  - vm_compute. reflexivity.
  - apply lines_leave_spec. vm_compute. reflexivity.
Defined.

Lemma _load_env_file_last_wins_witness :
  environ (_load_env_file host_dotenv ".env" (fresh {[ "A" := "0" ]})).2 !! "A"
  = Some "2".
Proof.
  apply (_load_env_file_last_wins host_dotenv ".env" dotenv_twice
           (fresh {[ "A" := "0" ]})
           (take 3 (file_lines dotenv_twice))
           (drop 4 (file_lines dotenv_twice))
           (default "" (file_lines dotenv_twice !! 3%nat)) "A" "2").
  - reflexivity.
  - vm_compute. reflexivity.
  - apply lines_accepted_spec. vm_compute. reflexivity.
  - vm_compute. reflexivity.
  - apply lines_leave_spec. vm_compute. reflexivity.
Defined.

Lemma _load_firebase_config_effect_witness :
  environ (_load_firebase_config one_json_file "firebase-config.json"
             (fresh ∅)).2 !! "FIREBASE_CONFIG_JSON"
  = Some (json_dumps (PyList [PyInt 1])).
Proof.
  destruct (_load_firebase_config_effect one_json_file "firebase-config.json"
              (fresh ∅)) as (_ & _ & _ & Hdoc & _).
  apply (Hdoc "[1]").
  - reflexivity.
  - vm_compute. reflexivity.
  - vm_compute. reflexivity.
Defined.

Lemma firebase_file_first_match_witness :
  load_first one_json_file (firebase_candidates one_json_file None ∅)
    (_load_firebase_config one_json_file) (fresh ∅)
  = _load_firebase_config one_json_file "firebase-config.json" (fresh ∅).
Proof.
  destruct (firebase_file_first_match one_json_file None (fresh ∅))
    as (_ & Hat & _).
  apply (Hat 1%nat "firebase-config.json").
  - reflexivity.
  - reflexivity.
  - intros [|j] o Hj; [intros [= <-]; reflexivity|lia].
Defined.

Lemma load_ec2_config_effect_witness :
  load_ec2_config no_files None None (fresh env_sample)
  = (Return (self sample_run.2),
     with_environ (<["AWS_DEFAULT_REGION" := "us-east-1"]> (environ sample_run.2))
       sample_run.2).
Proof.
  assert (env_wf (environ (fresh env_sample))) as Hwf
    by (apply env_wf_checked; vm_compute; reflexivity).
  pose proof (load_ec2_config_effect no_files None None (fresh env_sample) Hwf)
    as Hrun.
  vm_compute in Hrun. vm_compute. exact Hrun.
Defined.

Lemma accessors_when_load_fails_witness :
  __getitem__ no_files "aws" (fresh env_bad_port)
  = (Raise ValueError, (load no_files None None (fresh env_bad_port)).2) /\
  _loaded (self (load no_files None None (fresh env_bad_port)).2) = false.
Proof.
  destruct (accessors_when_load_fails no_files "aws" PyNone
              (fresh env_bad_port) ValueError
              (load no_files None None (fresh env_bad_port)).2)
    as (_ & Hget & _ & _ & _ & Hl).
  - reflexivity.
  - vm_compute. reflexivity.
  - split; [exact Hget|exact Hl].
Defined.

Lemma check_configuration_attribute_error_witness :
  check_configuration one_json_file (fresh ∅)
  = (Fail AttributeError,
     (load_ec2_config one_json_file None None (fresh ∅)).2).
Proof.
  apply (check_configuration_attribute_error one_json_file (fresh ∅)
           (self (load_ec2_config one_json_file None None (fresh ∅)).2)
           (load_ec2_config one_json_file None None (fresh ∅)).2
           (PyList [PyInt 1])).
  - vm_compute. reflexivity.
  - vm_compute. reflexivity.
  - intros d. discriminate.
Defined.

Lemma check_configuration_status_witness :
  exists a f d r : bool,
    check_configuration no_files (fresh env_sample)
    = (Done (<["anthropic_api" := PyBool a]>
               (<["firebase" := PyBool f]>
                  (<["admin" := PyBool d]>
                     {[ "aws_region" := PyBool r ]}))),
       (load_ec2_config no_files None None (fresh env_sample)).2) /\
    (d = true <->
     env_set (environ (load_ec2_config no_files None None (fresh env_sample)).2)
       "ADMIN_EMAIL").
Proof.
  destruct (check_configuration_status no_files env_sample
              (self (load_ec2_config no_files None None (fresh env_sample)).2)
              (load_ec2_config no_files None None (fresh env_sample)).2)
    as (a & f & d & r & Hrun & _ & _ & _ & Hd & _).
  - vm_compute. reflexivity.
  - intros v Hv. vm_compute in Hv. injection Hv as <-. eexists. reflexivity.
  - exists a, f, d, r. split; [exact Hrun|exact Hd].
Defined.

Lemma streamlit_app_ec2_effect_witness :
  streamlit_app_ec2 no_files (fresh env_deploy)
  = (Return tt, (load_ec2_config no_files None None (fresh env_deploy)).2).
Proof.
  assert (env_wf env_deploy) as Hwf
    by (apply env_wf_checked; vm_compute; reflexivity).
  pose proof (streamlit_app_ec2_effect no_files env_deploy Hwf) as Hrun.
  assert (load_ec2_config no_files None None (fresh env_deploy)
          = (Return (self (load_ec2_config no_files None None (fresh env_deploy)).2),
             (load_ec2_config no_files None None (fresh env_deploy)).2)) as E
    by (vm_compute; reflexivity).
  rewrite E in Hrun at 1. exact Hrun.
Defined.

Lemma aws_credentials_together_witness :
  exists aws : gmap string pyvalue,
    _config (self (load no_files None None (fresh env_deploy)).2) !! "aws"
    = Some (PyDict aws) /\
    aws !! "access_key_id" = Some (PyStr "AKIAEXAMPLE") /\
    aws !! "secret_access_key" = Some (PyStr "").
Proof.
  destruct (aws_credentials_together no_files None None (fresh env_deploy)
              (self (load no_files None None (fresh env_deploy)).2)
              (load no_files None None (fresh env_deploy)).2)
    as (aws & Haws & Hset & _).
  - vm_compute. reflexivity.
  - exists aws. split; [exact Haws|].
    apply (Hset "AKIAEXAMPLE").
    + vm_compute. reflexivity.
    + discriminate.
Defined.

Lemma admin_section_fields_witness :
  exists d : gmap string pyvalue,
    _config (self sample_run.2) !! "admin" = Some (PyDict d) /\
    d !! "email" = Some (PyStr "root@example.org").
Proof.
  apply (admin_section_fields no_files None None env_sample
           (self sample_run.2) sample_run.2 "email"
           (PyStr "root@example.org")).
  - vm_compute. reflexivity.
  - exists "ADMIN_EMAIL", "root@example.org". split_and!.
    + apply (bool_decide_unpack _). vm_compute. reflexivity.
    + vm_compute. reflexivity.
    + discriminate.
    + reflexivity.
Defined.

Lemma api_key_line_masking_witness :
  api_key_line "sk-short" = "   API Key: sk-short...".
Proof.
  apply (proj1 (api_key_line_masking "sk-short")). simpl. lia.
Defined.

Lemma accessors_load_once_witness :
  __getitem__ no_files "database" (fresh env_sample)
  = (Raise (KeyError "database"), sample_run.2) /\
  get no_files "database" (PyStr "none") (fresh env_sample)
  = (Return (PyStr "none"), sample_run.2) /\
  get no_files "database" (PyStr "none") sample_run.2
  = (Return (PyStr "none"), sample_run.2).
Proof.
  destruct (accessors_load_once no_files "database" (PyStr "none")
              (fresh env_sample) (self sample_run.2) sample_run.2)
    as (_ & Hitem & Hget & _ & _ & _ & _ & Hagain).
  - reflexivity.
  - vm_compute. reflexivity.
  - assert (_config (self sample_run.2) !! "database" = None) as E
      by (vm_compute; reflexivity).
    rewrite E in Hitem, Hget, Hagain. by split_and!.
Defined.
